(** * snowflake-data-diff: the table resolver and the diff classifier

    A shallow embedding of [src/snowflake-data-diff.py], the Streamlit page
    that lets a user pick a source and a target table of a Snowflake
    warehouse and shows the row-level differences computed by [data_diff].

    The page is one script: [load_sf_db_list] (the cascading selection of
    database, schema, table and key column) is run once per side, and the
    handler of the 'Show Table Diff' button partitions the materialized
    diff into three buckets.

    What the script calls but does not define (the warehouse behind
    [run_query_sf], the user behind [st.selectbox], [connect_to_table],
    [diff_tables], [pd.read_sql_query] and [DataFrame.to_csv]) is a
    [Variable] of its section.  So is the binding of the global name
    [SNOWFLAKE_CONN_INFO], which the script uses and does not bind: its
    use raises [NameError] when the binding is absent.  What the script
    does with the answers (raising, catching, logging, concatenating names,
    looking up columns, masking rows) is modelled as written, in a monad of
    exceptions over the state of the warehouse that also collects, in
    order, the calls, prints, log records and page elements produced.
    Streamlit's element calls are taken to return. *)

From Stdlib Require Import String Ascii List ZArith Bool Arith Lia Permutation DecimalString.
Import ListNotations.

Open Scope string_scope.
Open Scope list_scope.

(** Python's [+] on two [str]. *)
Infix "+:+" := String.append (at level 60, right associativity).

(** ** Python values *)

(** The values that travel through the script: cells of catalog rows,
    selected options, the components of the returned triple. *)
Inductive value : Type :=
| VNone
| VBool (b : bool)
| VInt (z : Z)
| VStr (s : string).

Definition type_name (v : value) : string :=
  match v with
  | VNone => "NoneType"
  | VBool _ => "bool"
  | VInt _ => "int"
  | VStr _ => "str"
  end.

Definition str_nat (n : nat) : string := NilEmpty.string_of_uint (Nat.to_uint n).

Definition str_Z (z : Z) : string := NilZero.string_of_int (Z.to_int z).

(** [str(v)], which is what an f-string field [{v}] inserts. *)
Definition py_str (v : value) : string :=
  match v with
  | VNone => "None"
  | VBool true => "True"
  | VBool false => "False"
  | VInt z => str_Z z
  | VStr s => s
  end.

(** Truth value of an object in a condition ([if x and y]). *)
Definition truthy (v : value) : bool :=
  match v with
  | VNone => false
  | VBool b => b
  | VInt z => negb (Z.eqb z 0)
  | VStr s => negb (String.eqb s "")
  end.

(** ** Exceptions *)

(** The subclasses of [Exception] that the script or pandas raise, and
    [External] for whatever a collaborator (the Snowflake connector, the
    diff engine, the SQL reader) raises, with its class name and message. *)
Inductive exn : Type :=
| ValueError (msg : string)
| TypeError (msg : string)
| KeyError (key : string)
| NameError (msg : string)
| External (cls msg : string).

(** [str(e)]: the message, and for a [KeyError] the quoted key. *)
Definition exn_str (e : exn) : string :=
  match e with
  | ValueError m => m
  | TypeError m => m
  | KeyError k => "'" +:+ k +:+ "'"
  | NameError m => m
  | External _ m => m
  end.

Definition dquote : string := String (ascii_of_nat 34) EmptyString.

(** [s + v] with a [str] on the left. *)
Definition str_add (s : string) (v : value) : exn + string :=
  match v with
  | VStr t => inr (s +:+ t)
  | _ => inl (TypeError ("can only concatenate str (not " +:+ dquote +:+ type_name v
                          +:+ dquote +:+ ") to str"))
  end.

Definition unsupported_add (a b : value) : exn :=
  TypeError ("unsupported operand type(s) for +: '" +:+ type_name a +:+ "' and '"
             +:+ type_name b +:+ "'").

(** An [int] operand of [+]; [bool] is a subclass of [int]. *)
Definition as_int (v : value) : option Z :=
  match v with
  | VInt z => Some z
  | VBool b => Some (if b then 1%Z else 0%Z)
  | _ => None
  end.

(** [a + b] on values. *)
Definition py_add (a b : value) : exn + value :=
  match a with
  | VStr s => match str_add s b with inr r => inr (VStr r) | inl e => inl e end
  | _ =>
      match as_int a, as_int b with
      | Some x, Some y => inr (VInt (x + y))
      | _, _ => inl (unsupported_add a b)
      end
  end.

(** ** Data frames *)

Definition row : Type := list value.

(** A frame built by [pd.DataFrame(rows, columns=labels)]. *)
Record DataFrame : Type := mkDataFrame {
  columns : list string;
  data : list row
}.

(** Number of columns pandas finds in a list of tuples: the longest one. *)
Definition width (rows : list row) : nat :=
  fold_right (fun r k => Nat.max (length r) k) 0 rows.

(** Shorter tuples are filled up with [None]. *)
Definition pad (n : nat) (r : row) : row := r ++ repeat VNone (n - length r).

(** [pd.DataFrame(rows, columns=labels)]: the number of labels must be the
    number of columns of the data. *)
Definition pd_DataFrame (rows : list row) (labels : list string) : exn + DataFrame :=
  if Nat.eqb (width rows) (length labels)
  then inr (mkDataFrame labels (map (pad (width rows)) rows))
  else inl (ValueError (str_nat (length labels) +:+ " columns passed, passed data had "
                        +:+ str_nat (width rows) +:+ " columns")).

Fixpoint index_of (label : string) (labels : list string) : option nat :=
  match labels with
  | [] => None
  | l :: ls => if String.eqb l label then Some 0
               else match index_of label ls with Some i => Some (S i) | None => None end
  end.

Definition column_at (i : nat) (rows : list row) : list value :=
  map (fun r => nth i r VNone) rows.

(** [df[label]]. *)
Definition getitem (df : DataFrame) (label : string) : exn + list value :=
  match index_of label (columns df) with
  | Some i => inr (column_at i (data df))
  | None => inl (KeyError label)
  end.

(** The options a select box offers when it is given a whole frame: the
    values of its first column. *)
Definition first_column (df : DataFrame) : list value := column_at 0 (data df).

(** One row of the materialized diff: its two boolean flag columns and the
    cells of the other columns. *)
Record DiffRow : Type := mkDiffRow {
  is_exclusive_a : bool;
  is_exclusive_b : bool;
  cells : row
}.

(** The materialized diff with its two flag columns: the labels of the
    columns other than the two flags, and the rows. *)
Record DiffFrame : Type := mkDiffFrame {
  labels : list string;
  rows : list DiffRow
}.

(** A boolean column ([diff_op['is_exclusive_a']]). *)
Definition flag_a (df : DiffFrame) : list bool := map is_exclusive_a (rows df).
Definition flag_b (df : DiffFrame) : list bool := map is_exclusive_b (rows df).

(** [~s] and [s & t] on boolean columns. *)
Definition series_not (s : list bool) : list bool := map negb s.
Definition series_and (s t : list bool) : list bool :=
  map (fun p => andb (fst p) (snd p)) (combine s t).

(** [df.loc[mask]]: the rows whose mask entry is [True]. *)
Definition loc (df : DiffFrame) (mask : list bool) : DiffFrame :=
  mkDiffFrame (labels df) (map fst (filter snd (combine (rows df) mask))).

(** [len(df)]. *)
Definition len (df : DiffFrame) : nat := length (rows df).

(** [df[label]] on the diff frame. *)
Definition diff_getitem (df : DiffFrame) (label : string) : exn + list value :=
  if String.eqb label "is_exclusive_a" then inr (map VBool (flag_a df))
  else if String.eqb label "is_exclusive_b" then inr (map VBool (flag_b df))
  else match index_of label (labels df) with
       | Some i => inr (column_at i (map cells (rows df)))
       | None => inl (KeyError label)
       end.

(** Lines 131-133: the three buckets. *)
Definition not_in_target (diff_op : DiffFrame) : DiffFrame :=
  loc diff_op (series_and (flag_a diff_op) (series_not (flag_b diff_op))).
Definition not_in_source (diff_op : DiffFrame) : DiffFrame :=
  loc diff_op (series_and (series_not (flag_a diff_op)) (flag_b diff_op)).
Definition value_mismatch (diff_op : DiffFrame) : DiffFrame :=
  loc diff_op (series_and (series_not (flag_a diff_op)) (series_not (flag_b diff_op))).

(** The diff table as [pd.read_sql_query] returns it: the two flag columns,
    where the table has them, and the labels and the cells of the other
    columns.  The columns of a frame have one length. *)
Record Materialized : Type := mkMaterialized {
  exclusive_a : option (list bool);
  exclusive_b : option (list bool);
  other_labels : list string;
  other_cells : list row
}.

(** The lookups [diff_op['is_exclusive_a']] and [diff_op['is_exclusive_b']]
    of lines 131-133, in the order line 131 makes them: a [KeyError] for a
    column the frame does not have, else the frame with its flags. *)
Definition flagged (diff_op : Materialized) : exn + DiffFrame :=
  match exclusive_a diff_op with
  | None => inl (KeyError "is_exclusive_a")
  | Some a =>
      match exclusive_b diff_op with
      | None => inl (KeyError "is_exclusive_b")
      | Some b =>
          inr (mkDiffFrame (other_labels diff_op)
                 (map (fun r => mkDiffRow (fst (fst r)) (snd (fst r)) (snd r))
                      (combine (combine a b) (other_cells diff_op))))
      end
  end.

(** The row-wise reading of the three masks. *)
Definition MissingInTarget (r : DiffRow) : bool := is_exclusive_a r && negb (is_exclusive_b r).
Definition MissingInSource (r : DiffRow) : bool := negb (is_exclusive_a r) && is_exclusive_b r.
Definition ValueMismatch (r : DiffRow) : bool := negb (is_exclusive_a r) && negb (is_exclusive_b r).

(** ** The page: calls, prints, log records and elements, in order *)

Record Indicator : Type := mkIndicator {
  ind_value : nat;
  ind_title : string;
  ind_font_color : string
}.

Inductive event : Type :=
| Query (query : string) (answer : exn + list row)
| Print (label : string) (rows : list row)
| Selectbox (label : string) (options : list value) (key : Z) (picked : value)
| LoggingError (msg : string)
| StError (msg : string)
| StHeader (text : string)
| StWrite (v : value)
| StWriteSeries (s : list value)
| StPlotlyChart (fig : list Indicator)
| StSubheader (text : string)
| StDownloadButton (label data file_name mime key : string)
| ConnectToTable (name key : value)
| DiffTables (extra : option (list value)) (materialize_to_table : string)
| ReadSqlQuery (query : string).

(** ** The monad of the script *)

(** A computation starts in a state of the warehouse and ends with a value
    or a raised exception, the warehouse as it left it, and the events it
    produced, oldest first.  What was done before an exception stays done. *)
Record Outcome (W A : Type) : Type := mkOutcome {
  result : exn + A;
  wh : W;
  out : list event
}.

Arguments mkOutcome {W A} _ _ _.
Arguments result {W A} _.
Arguments wh {W A} _.
Arguments out {W A} _.

Definition M (W A : Type) : Type := W -> Outcome W A.

Section Monad.
Context {W : Type}.

Definition ret {A} (a : A) : M W A := fun w => mkOutcome (inr a) w [].

Definition bind {A B} (c : M W A) (k : A -> M W B) : M W B :=
  fun w =>
    match c w with
    | mkOutcome (inr a) w' t =>
        match k a w' with
        | mkOutcome r w'' t' => mkOutcome r w'' (t ++ t')
        end
    | mkOutcome (inl e) w' t => mkOutcome (inl e) w' t
    end.

Definition raise {A} (e : exn) : M W A := fun w => mkOutcome (inl e) w [].

Definition lift {A} (r : exn + A) : M W A := fun w => mkOutcome r w [].

(** [try: body] / [except Exception as e: handler e]. *)
Definition try_except {A} (body : M W A) (handler : exn -> M W A) : M W A :=
  fun w =>
    match body w with
    | mkOutcome (inl e) w' t =>
        match handler e w' with
        | mkOutcome r w'' t' => mkOutcome r w'' (t ++ t')
        end
    | mkOutcome (inr a) w' t => mkOutcome (inr a) w' t
    end.

Definition emit (e : event) : M W unit := fun w => mkOutcome (inr tt) w [e].

(** [if cond: raise e]. *)
Definition raise_if (cond : bool) (e : exn) : M W unit :=
  if cond then raise e else ret tt.

Definition logging_error (msg : string) : M W unit := emit (LoggingError msg).
Definition st_error (msg : string) : M W unit := emit (StError msg).
End Monad.

Declare Scope script_scope.
Delimit Scope script_scope with script.
Notation "x <- c ;; k" := (bind c (fun x => k))
  (at level 100, c at next level, right associativity) : script_scope.
Notation "c ;; k" := (bind c (fun _ => k))
  (at level 100, right associativity) : script_scope.
Open Scope script_scope.

(** [not rows] for a list. *)
Definition is_empty {A} (l : list A) : bool :=
  match l with [] => true | _ => false end.

(** ** The table resolver ([load_sf_db_list], lines 52-88) *)

(** What the function returns: [(full_qual_name, key_column_name, columns)],
    or [(None, None, None)]. *)
Definition triple : Type := (value * value * option (list value))%type.

Definition unresolved : triple := (VNone, VNone, None).

Definition db_columns : list string :=
  ["DATABASE_NAME"; "CREATED"; "DATABASE_OWNER"; "COMMENT"; "UNKNOWN_COLUMN"].
Definition schema_columns : list string :=
  ["created_on"; "name"; "kind"; "database_name"; "SCHEMA_NAME"].
Definition table_columns : list string :=
  ["created_on"; "name"; "kind"; "database_name"; "SCHEMA_NAME"].
Definition column_columns : list string :=
  ["table_name"; "schema_name"; "column_name"; "data_type"; "null?"; "default"; "kind";
   "expression"; "comment"; "database_name"; "autoincrement"].

Definition db_query (current_tz : string) : string :=
  "SELECT DATABASE_NAME, CONVERT_TIMEZONE('" +:+ current_tz +:+
  "', CREATED) as CREATED_TIME, DATABASE_OWNER, COMMENT FROM SNOWFLAKE.INFORMATION_SCHEMA.DATABASES ORDER BY CREATED_TIME DESC;".

Definition load_error_prefix : string := "Error loading database/schema/table list: ".

Section Resolver.
Context {W : Type}.

(** [tzlocal.get_localzone_name()]. *)
Variable current_tz : string.

(** What the cursor fetches, or raises, for a query text.  The cache of
    [run_query_sf] is keyed by that text. *)
Variable fetchall : string -> exn + list row.

(** The option that is selected in the widget with a given key, among the
    options it offers. *)
Variable selected : Z -> list value -> value.

Definition run_query_sf (query : string) : M W (list row) :=
  fun w => mkOutcome (fetchall query) w [Query query (fetchall query)].

Definition st_selectbox (label : string) (options : list value) (key : Z) : M W value :=
  emit (Selectbox label options key (selected key options)) ;;
  ret (selected key options).

(** The suite of the [try] statement, lines 54-83. *)
Definition load_sf_db_list_try (count : Z) : M W triple :=
  db_list <- run_query_sf (db_query current_tz) ;;
  raise_if (is_empty db_list) (ValueError "No databases found.") ;;
  emit (Print "db_list:" db_list) ;;
  db_list_df <- lift (pd_DataFrame db_list db_columns) ;;
  db_name <- st_selectbox "Please select the database that you would like to compare?"
               (first_column db_list_df) (count + 1) ;;

  q <- lift (str_add "SHOW TERSE SCHEMAS IN " db_name) ;;
  schema_list <- run_query_sf (q +:+ ";") ;;
  raise_if (is_empty schema_list) (ValueError "No schemas found.") ;;
  emit (Print "schema_list:" schema_list) ;;
  schema_list_df <- lift (pd_DataFrame schema_list schema_columns) ;;
  schema_names <- lift (getitem schema_list_df "name") ;;
  schema_name <- st_selectbox "Please select the schema that you would like to compare?"
                   schema_names (count + 2) ;;

  q <- lift (str_add "SHOW TERSE TABLES IN SCHEMA " db_name) ;;
  q <- lift (str_add (q +:+ ".") schema_name) ;;
  table_list <- run_query_sf (q +:+ ";") ;;
  raise_if (is_empty table_list) (ValueError "No tables found.") ;;
  emit (Print "Table List:" table_list) ;;
  table_list_df <- lift (pd_DataFrame table_list table_columns) ;;
  table_names <- lift (getitem table_list_df "name") ;;
  table_name <- st_selectbox "Please select the table that you would like to compare?"
                  table_names (count + 3) ;;

  q <- lift (str_add "SHOW TERSE COLUMNS IN " db_name) ;;
  q <- lift (str_add (q +:+ ".") schema_name) ;;
  q <- lift (str_add (q +:+ ".") table_name) ;;
  column_list <- run_query_sf (q +:+ ";") ;;
  emit (Print "Column List:" column_list) ;;
  raise_if (is_empty column_list) (ValueError "No columns found.") ;;
  column_list_df <- lift (pd_DataFrame column_list column_columns) ;;
  column_names <- lift (getitem column_list_df "column_name") ;;
  key_column_name <- st_selectbox "Please select the unique key (primary key)?"
                       column_names (count + 4) ;;

  n <- lift (py_add db_name (VStr ".")) ;;
  n <- lift (py_add n schema_name) ;;
  n <- lift (py_add n (VStr ".")) ;;
  full_qual_name <- lift (py_add n table_name) ;;
  column_names' <- lift (getitem column_list_df "column_name") ;;
  ret (full_qual_name, key_column_name, Some column_names').

(** The [except Exception as e] clause, lines 85-88. *)
Definition load_sf_db_list_except (e : exn) : M W triple :=
  logging_error (load_error_prefix +:+ exn_str e) ;;
  st_error (load_error_prefix +:+ exn_str e) ;;
  ret unresolved.

Definition load_sf_db_list (count : Z) : M W triple :=
  try_except (load_sf_db_list_try count) load_sf_db_list_except.
End Resolver.

(** ** The diff classifier (the 'Show Table Diff' handler, lines 120-171) *)

(** Lines 135-137. *)
Definition bucket_counts (diff_op : DiffFrame) : nat * nat * nat :=
  (len (not_in_target diff_op), len (not_in_source diff_op), len (value_mismatch diff_op)).

(** Lines 139-145: one row of three number indicators. *)
Definition fig_count (counts : nat * nat * nat) : list Indicator :=
  let '(total_not_in_target, total_not_in_source, total_value_mismatch) := counts in
  [mkIndicator total_not_in_target "<b>Missing in Target</b>" "red";
   mkIndicator total_not_in_source "<b>Missing in Source</b>" "black";
   mkIndicator total_value_mismatch "<b>Value Mismatch</b>" "orange"].

Definition select_tables_msg : string :=
  "Source and Target tables must be selected before showing table diff.".
Definition diff_failed_msg : string :=
  "Error calculating table differences. Please check your selections and try again.".

(** What the use of a name raises when nothing binds it. *)
Definition unbound (name : string) : exn :=
  NameError ("name '" +:+ name +:+ "' is not defined").

Section Classifier.
Context {W : Type}.

(** What the global name [SNOWFLAKE_CONN_INFO] is bound to when the handler
    runs.  The script neither assigns nor imports the name: run as it is,
    the name is unbound ([None]). *)
Variable ConnInfo : Type.
Variable SNOWFLAKE_CONN_INFO : option ConnInfo.

(** [data_diff.connect_to_table]: a table bound to its key column, or an
    exception. *)
Variable TableSegment : Type.
Variable connect : ConnInfo -> value -> value -> exn + TableSegment.

(** [data_diff.diff_tables], drained: what it raises, if anything, and the
    warehouse it leaves, in which it has materialized the diff. *)
Variable engine :
  TableSegment -> TableSegment -> option (list value) -> string -> W -> option exn * W.

(** [pd.read_sql_query(query, conn)] on the materialized diff table. *)
Variable read_sql : string -> W -> exn + Materialized.

(** [df.to_csv(index=False).encode('utf-8')]. *)
Variable to_csv : DiffFrame -> string.

(** [connect_to_table(SNOWFLAKE_CONN_INFO, name, key)]: the arguments are
    evaluated before the call is made. *)
Definition connect_to_table (name key : value) : M W TableSegment :=
  match SNOWFLAKE_CONN_INFO with
  | None => raise (unbound "SNOWFLAKE_CONN_INFO")
  | Some info =>
      emit (ConnectToTable name key) ;;
      lift (connect info name key)
  end.

(** [for different_row in diff_tables(...): pass]. *)
Definition diff_tables (table1 table2 : TableSegment) (extra_columns : option (list value))
    (materialize_to_table : string) : M W unit :=
  fun w =>
    let r := engine table1 table2 extra_columns materialize_to_table w in
    mkOutcome (match fst r with Some e => inl e | None => inr tt end) (snd r)
              [DiffTables extra_columns materialize_to_table].

Definition read_sql_query (query : string) : M W Materialized :=
  fun w => mkOutcome (read_sql query w) w [ReadSqlQuery query].

Definition convert_df_csv (df : DiffFrame) : string := to_csv df.

(** Line 125. *)
Definition materialize_table_name (full_qual_target_name : value) : string :=
  py_str full_qual_target_name +:+ "_DIFF".

(** Lines 123-130: bind both tables, run the engine, read the result back. *)
Definition materialized_diff (source target : triple) : M W Materialized :=
  let '(full_qual_source_name, source_key_col, source_col_list) := source in
  let '(full_qual_target_name, target_key_col, target_col_list) := target in
  snowflake_table <- connect_to_table full_qual_source_name source_key_col ;;
  snowflake_table2 <- connect_to_table full_qual_target_name target_key_col ;;
  diff_tables snowflake_table snowflake_table2 source_col_list
              (materialize_table_name full_qual_target_name) ;;
  read_sql_query ("SELECT * FROM " +:+ materialize_table_name full_qual_target_name +:+ ";").

(** Lines 123-133, as far as they can fail: the materialized diff with its
    two flag columns looked up. *)
Definition partitioned (source target : triple) : M W DiffFrame :=
  diff_op <- materialized_diff source target ;;
  lift (flagged diff_op).

(** Lines 131-166: the flag columns, the buckets, the counts, the chart,
    and per bucket the download and the key column.  The lookups of the
    flag columns and of the key columns raise on a frame without them. *)
Definition show_buckets (diff_op : Materialized) (source_key_col : value) : M W unit :=
  diff_op <- lift (flagged diff_op) ;;
  let not_in_target := not_in_target diff_op in
  let not_in_source := not_in_source diff_op in
  let value_mismatch := value_mismatch diff_op in
  emit (StPlotlyChart (fig_count (bucket_counts diff_op))) ;;

  emit (StSubheader "Missing in Target Table") ;;
  emit (StDownloadButton "Click to Download" (convert_df_csv not_in_target)
          "not_in_target.csv" "text/csv" "download-csv-not_in_target") ;;
  keys <- lift (diff_getitem not_in_target (py_str source_key_col +:+ "_a")) ;;
  emit (StWriteSeries keys) ;;

  emit (StSubheader "Missing in Source Table") ;;
  emit (StDownloadButton "Click to Download" (convert_df_csv not_in_source)
          "not_in_source.csv" "text/csv" "download-csv-not_in_source") ;;
  keys <- lift (diff_getitem not_in_source (py_str source_key_col +:+ "_b")) ;;
  emit (StWriteSeries keys) ;;

  emit (StSubheader "Value Mismatch") ;;
  emit (StDownloadButton "Click to Download" (convert_df_csv value_mismatch)
          "value_mismatch.csv" "text/csv" "download-csv-value_mismatch") ;;
  keys <- lift (diff_getitem value_mismatch (py_str source_key_col +:+ "_a")) ;;
  emit (StWriteSeries keys).

(** The suite of the [try] statement, lines 122-168. *)
Definition show_table_diff_try (source target : triple) : M W unit :=
  if truthy (fst (fst source)) && truthy (fst (fst target)) then
    diff_op <- materialized_diff source target ;;
    show_buckets diff_op (snd (fst source))
  else
    st_error select_tables_msg.

(** The [except Exception as er] clause, lines 169-171. *)
Definition show_table_diff_except (er : exn) : M W unit :=
  st_error diff_failed_msg ;;
  logging_error (exn_str er).

Definition show_table_diff (source target : triple) : M W unit :=
  try_except (show_table_diff_try source target) show_table_diff_except.
End Classifier.

Arguments materialized_diff {W ConnInfo} SNOWFLAKE_CONN_INFO {TableSegment} connect engine read_sql.
Arguments partitioned {W ConnInfo} SNOWFLAKE_CONN_INFO {TableSegment} connect engine read_sql.
Arguments show_table_diff_try {W ConnInfo} SNOWFLAKE_CONN_INFO {TableSegment} connect engine read_sql to_csv.
Arguments show_table_diff {W ConnInfo} SNOWFLAKE_CONN_INFO {TableSegment} connect engine read_sql to_csv.
Arguments connect_to_table {W ConnInfo} SNOWFLAKE_CONN_INFO {TableSegment} connect.
Arguments show_buckets {W} to_csv.
Arguments diff_tables {W TableSegment} engine.

(** ** The script (lines 94-171) *)

(** The page title, the style sheet, the layout in columns and the closing
    remark are static and are left out. *)

Section Script.
Context {W : Type}.
Variable current_tz : string.
Variable fetchall : string -> exn + list row.
Variable selected : Z -> list value -> value.
Variable ConnInfo : Type.
Variable SNOWFLAKE_CONN_INFO : option ConnInfo.
Variable TableSegment : Type.
Variable connect : ConnInfo -> value -> value -> exn + TableSegment.
Variable engine :
  TableSegment -> TableSegment -> option (list value) -> string -> W -> option exn * W.
Variable read_sql : string -> W -> exn + Materialized.
Variable to_csv : DiffFrame -> string.

(** One of the two [with col:] blocks, lines 98-118.  It yields the triple
    it has bound, or nothing when the names stay unbound. *)
Definition side (header : string) (count_in : Z) (failed_msg log_prefix : string)
  : M W (option triple) :=
  try_except
    (emit (StHeader header) ;;
     t <- load_sf_db_list current_tz fetchall selected count_in ;;
     (if truthy (fst (fst t)) then emit (StWrite (fst (fst t))) else ret tt) ;;
     ret (Some t))
    (fun er =>
       st_error failed_msg ;;
       logging_error (log_prefix +:+ exn_str er) ;;
       ret None).

(** The page for one run; [pressed] is what [st.button] returns. *)
Definition script (pressed : bool) : M W unit :=
  source <- side "Source Table" 1
    "Error loading Source Table. Please select a valid (non-empty) schema/table combination."
    "Source Table Error: " ;;
  target <- side "Target Table" 100
    "Error loading Target Table. Please select a valid (non-empty) schema/table combination."
    "Target Table Error: " ;;
  if pressed then
    match source, target with
    | Some s, Some t =>
        show_table_diff SNOWFLAKE_CONN_INFO connect engine read_sql to_csv s t
    | None, _ =>
        try_except (raise (unbound "full_qual_source_name")) show_table_diff_except
    | Some _, None =>
        try_except (raise (unbound "full_qual_target_name")) show_table_diff_except
    end
  else ret tt.
End Script.

(** * Observations on runs *)

(** Exactly one of three conditions holds. *)
Definition exactly_one (x y z : bool) : Prop :=
  (x = true /\ y = false /\ z = false) \/
  (x = false /\ y = true /\ z = false) \/
  (x = false /\ y = false /\ z = true).

(** A bucket claims a row when the row is one of its rows. *)
Definition claims (bucket : DiffFrame) (r : DiffRow) : Prop := In r (rows bucket).

Definition exactly_one_of (P Q R : Prop) : Prop :=
  (P /\ ~ Q /\ ~ R) \/ (~ P /\ Q /\ ~ R) \/ (~ P /\ ~ Q /\ R).

Definition disjoint (d e : DiffFrame) : Prop :=
  forall r, ~ (claims d r /\ claims e r).

(** The catalog queries of a run with their answers, in order. *)
Definition queries (tr : list event) : list (string * (exn + list row)) :=
  flat_map (fun e => match e with Query q a => [(q, a)] | _ => [] end) tr.

(** The labels the frame of each step is built with: the databases, the
    schemas, the tables, the columns. *)
Definition expected_columns (step : nat) : list string :=
  match step with
  | 0 => db_columns
  | 1 => schema_columns
  | 2 => table_columns
  | _ => column_columns
  end.

(** An answer has rows, and as many columns as its step expects. *)
Definition well_shaped (step : nat) (answer : exn + list row) : bool :=
  match answer with
  | inr rows => negb (is_empty rows) && Nat.eqb (width rows) (length (expected_columns step))
  | inl _ => false
  end.

(** Every answer of a run is well shaped for its step, counting from [step]. *)
Fixpoint all_well_shaped (step : nat) (qs : list (string * (exn + list row))) : bool :=
  match qs with
  | [] => true
  | (_, a) :: rest => well_shaped step a && all_well_shaped (S step) rest
  end.

(** The option picked in the select box with a given key, if the run showed
    one. *)
Fixpoint picked (key : Z) (tr : list event) : option value :=
  match tr with
  | [] => None
  | Selectbox _ _ k v :: rest => if Z.eqb k key then Some v else picked key rest
  | _ :: rest => picked key rest
  end.

(** The exceptions the resolver raises for a query without rows (lines 56,
    63, 70, 78). *)
Definition empty_result_error (e : exn) : bool :=
  match e with
  | ValueError msg =>
      existsb (String.eqb msg)
        ["No databases found."; "No schemas found."; "No tables found."; "No columns found."]
  | _ => false
  end.

(** A text occurs in a message. *)
Definition contains (text msg : string) : Prop :=
  exists before after, msg = before +:+ text +:+ after.

(** The elements that show a bucket: the chart of the counts, a bucket's
    heading, download and key column. *)
Definition shows_bucket (e : event) : bool :=
  match e with
  | StPlotlyChart _ | StSubheader _ | StDownloadButton _ _ _ _ _ | StWriteSeries _ => true
  | _ => false
  end.

(** The messages shown to the user by [st.error]. *)
Definition error_messages (tr : list event) : list string :=
  flat_map (fun e => match e with StError msg => [msg] | _ => [] end) tr.

(** The numbers of the charts shown. *)
Definition shown_counts (tr : list event) : list (list nat) :=
  flat_map (fun e => match e with StPlotlyChart fig => [map ind_value fig] | _ => [] end) tr.

(** A call to a collaborator of the classifier. *)
Definition engine_call (e : event) : bool :=
  match e with
  | ConnectToTable _ _ | DiffTables _ _ | ReadSqlQuery _ => true
  | _ => false
  end.

(** The rows of a frame built from an answer: each filled up with [None] to
    the width of the answer. *)
Definition frame_rows (answer : list row) : list row := map (pad (width answer)) answer.

(** The text of the catalog query of each step, given the names picked so
    far (lines 54, 61, 68, 75). *)
Definition catalog_query (current_tz : string) (step : nat) (d s t : string) : string :=
  match step with
  | 0 => db_query current_tz
  | 1 => ("SHOW TERSE SCHEMAS IN " +:+ d) +:+ ";"
  | 2 => ((("SHOW TERSE TABLES IN SCHEMA " +:+ d) +:+ ".") +:+ s) +:+ ";"
  | _ => ((((("SHOW TERSE COLUMNS IN " +:+ d) +:+ ".") +:+ s) +:+ ".") +:+ t) +:+ ";"
  end.

(** The message of the exception raised for a listing without rows (lines
    56, 63, 70, 78). *)
Definition empty_message (step : nat) : string :=
  match step with
  | 0 => "No databases found."
  | 1 => "No schemas found."
  | 2 => "No tables found."
  | _ => "No columns found."
  end.

(** The message pandas gives when labels and data do not agree. *)
Definition mismatch_message (labels : list string) (answer : list row) : string :=
  str_nat (length labels) +:+ " columns passed, passed data had "
  +:+ str_nat (width answer) +:+ " columns".

(** The message Python gives when a [str] is concatenated with another
    object. *)
Definition concatenate_message (v : value) : string :=
  "can only concatenate str (not " +:+ dquote +:+ type_name v +:+ dquote +:+ ") to str".

Definition is_str (v : value) : bool :=
  match v with VStr _ => true | _ => false end.

(** The messages logged by [logging.error]. *)
Definition log_messages (tr : list event) : list string :=
  flat_map (fun e => match e with LoggingError msg => [msg] | _ => [] end) tr.

(** The keys of the select boxes of a run, in order. *)
Definition selectbox_keys (tr : list event) : list Z :=
  flat_map (fun e => match e with Selectbox _ _ key _ => [key] | _ => [] end) tr.

(** The options offered by the select box with a given key. *)
Fixpoint offered (key : Z) (tr : list event) : option (list value) :=
  match tr with
  | [] => None
  | Selectbox _ options k _ :: rest => if Z.eqb k key then Some options else offered key rest
  | _ :: rest => offered key rest
  end.

(** The key columns written on the page. *)
Definition written_series (tr : list event) : list (list value) :=
  flat_map (fun e => match e with StWriteSeries s => [s] | _ => [] end) tr.

(** The keys of the download buttons of a run, in order. *)
Definition download_keys (tr : list event) : list string :=
  flat_map (fun e => match e with StDownloadButton _ _ _ _ key => [key] | _ => [] end) tr.

(** The payloads of the download buttons of a run, in order. *)
Definition downloads (tr : list event) : list string :=
  flat_map (fun e => match e with StDownloadButton _ data _ _ _ => [data] | _ => [] end) tr.

(** A row has both flags set. *)
Definition BothExclusive (r : DiffRow) : bool := is_exclusive_a r && is_exclusive_b r.

(** The exception a listing that is not well shaped makes the resolver
    raise: the query's own, the one for no rows, or pandas' for the shape. *)
Definition answer_error (step : nat) (answer : exn + list row) : exn :=
  match answer with
  | inl e => e
  | inr [] => ValueError (empty_message step)
  | inr rows => ValueError (mismatch_message (expected_columns step) rows)
  end.

(** The diff frame has a column of a given name ([label in df.columns]). *)
Definition has_column (df : DiffFrame) (label : string) : bool :=
  String.eqb label "is_exclusive_a" || String.eqb label "is_exclusive_b"
  || match index_of label (labels df) with Some _ => true | None => false end.

(** What a [with col:] block writes under the select boxes: the qualified
    name, when there is one (lines 103-104 and 114-115). *)
Definition name_written (t : triple) : list event :=
  if truthy (fst (fst t)) then [StWrite (fst (fst t))] else [].

(** ** Sample catalogs, warehouses and users *)

Module Sample.

Definition tz : string := "America/Chicago".

(** Catalog answers of the shapes the frames are labelled with. *)
Definition databases : list row :=
  [[VStr "SALES"; VStr "2024-03-01 09:00:00"; VStr "SYSADMIN"; VNone; VNone];
   [VStr "STAGING"; VStr "2024-01-15 17:30:00"; VStr "SYSADMIN"; VStr "landing zone"; VNone]].

Definition schemas : list row :=
  [[VStr "2024-03-01 09:00:05"; VStr "PUBLIC"; VNone; VStr "SALES"; VNone]].

Definition tables : list row :=
  [[VStr "2024-03-02 10:00:00"; VStr "ORDERS"; VStr "TABLE"; VStr "SALES"; VStr "PUBLIC"]].

Definition order_columns : list row :=
  [[VStr "ORDERS"; VStr "PUBLIC"; VStr "ID"; VStr "NUMBER"; VStr "NOT_NULL"; VNone;
    VStr "COLUMN"; VNone; VNone; VStr "SALES"; VNone];
   [VStr "ORDERS"; VStr "PUBLIC"; VStr "AMOUNT"; VStr "NUMBER"; VStr "true"; VNone;
    VStr "COLUMN"; VNone; VNone; VStr "SALES"; VNone]].

(** The database listing as the query of line 54 selects it: four columns. *)
Definition databases_as_queried : list row :=
  [[VStr "SALES"; VStr "2024-03-01 09:00:00"; VStr "SYSADMIN"; VNone];
   [VStr "STAGING"; VStr "2024-01-15 17:30:00"; VStr "SYSADMIN"; VStr "landing zone"]].

(** A table listing one column short. *)
Definition narrow_tables : list row :=
  [[VStr "2024-03-02 10:00:00"; VStr "ORDERS"; VStr "TABLE"; VStr "SALES"]].

(** A warehouse that answers the four catalog queries about SALES.PUBLIC.ORDERS. *)
Definition catalog (dbs schs tbls cols : list row) (query : string) : exn + list row :=
  if String.eqb query (db_query tz) then inr dbs
  else if String.eqb query "SHOW TERSE SCHEMAS IN SALES;" then inr schs
  else if String.eqb query "SHOW TERSE TABLES IN SCHEMA SALES.PUBLIC;" then inr tbls
  else if String.eqb query "SHOW TERSE COLUMNS IN SALES.PUBLIC.ORDERS;" then inr cols
  else inl (External "ProgrammingError" "SQL compilation error").

(** A user who leaves every select box on its first option. *)
Definition first_option (key : Z) (options : list value) : value := hd VNone options.

Definition resolve (dbs schs tbls cols : list row) (count : Z) : Outcome unit triple :=
  load_sf_db_list tz (catalog dbs schs tbls cols) first_option count tt.

(** The diff of the four-row example. *)
Definition four_rows : DiffFrame :=
  mkDiffFrame ["ID_a"; "ID_b"]
    [mkDiffRow true false [VInt 1; VNone];
     mkDiffRow false true [VNone; VInt 2];
     mkDiffRow false false [VInt 3; VInt 3];
     mkDiffRow false false [VInt 4; VInt 4]].

(** A warehouse that holds at most one materialized diff, under its name. *)
Definition Warehouse : Type := option (string * DiffFrame).

Definition orders : triple := (VStr "SALES.PUBLIC.ORDERS", VStr "ID", Some [VStr "ID"; VStr "AMOUNT"]).
Definition orders_copy : triple :=
  (VStr "STAGING.PUBLIC.ORDERS", VStr "ID", Some [VStr "ID"; VStr "AMOUNT"]).

Definition connect (info : string) (name key : value) : exn + (value * value) :=
  inr (name, key).

(** An engine that finds the four rows and overwrites what was materialized. *)
Definition engine (table1 table2 : value * value) (extra : option (list value))
    (name : string) (w : Warehouse) : option exn * Warehouse :=
  (None, Some (name, four_rows)).

(** An engine that fails before it materializes anything. *)
Definition broken_engine (table1 table2 : value * value) (extra : option (list value))
    (name : string) (w : Warehouse) : option exn * Warehouse :=
  (Some (External "RuntimeError" "Query timed out"), w).

(** A diff as it is stored: with both flag columns. *)
Definition stored (d : DiffFrame) : Materialized :=
  mkMaterialized (Some (flag_a d)) (Some (flag_b d)) (labels d) (map cells (rows d)).

Definition read_sql (query : string) (w : Warehouse) : exn + Materialized :=
  match w with
  | Some (name, d) =>
      if String.eqb query ("SELECT * FROM " +:+ name +:+ ";") then inr (stored d)
      else inl (External "DatabaseError" "Object does not exist")
  | None => inl (External "DatabaseError" "Object does not exist")
  end.

Definition newline : string := String (ascii_of_nat 10) EmptyString.

(** Header line and one line per row, without the index. *)
Definition to_csv (d : DiffFrame) : string :=
  String.concat newline
    (String.concat "," ("is_exclusive_a" :: "is_exclusive_b" :: labels d)
     :: map (fun r => String.concat ","
                        (map py_str (VBool (is_exclusive_a r) :: VBool (is_exclusive_b r)
                                     :: cells r)))
            (rows d)).

Definition diff (eng : value * value -> value * value -> option (list value) -> string ->
                       Warehouse -> option exn * Warehouse)
    (source target : triple) (w : Warehouse) : Outcome Warehouse unit :=
  show_table_diff (Some "snowflake://analyst@acme/SALES") connect eng read_sql to_csv
    source target w.

(** The handler run as the script has it, with [SNOWFLAKE_CONN_INFO] unbound. *)
Definition shipped_diff (source target : triple) (w : Warehouse) : Outcome Warehouse unit :=
  show_table_diff None connect engine read_sql to_csv source target w.

End Sample.

(** ** More sample catalogs and pages *)

Module Cases.

(** A database listing whose first database the sample warehouse cannot
    list the schemas of. *)
Definition archived_databases : list row :=
  [[VStr "ARCHIVE"; VStr "2023-11-05 08:00:00"; VStr "SYSADMIN"; VNone; VNone];
   [VStr "SALES"; VStr "2024-03-01 09:00:00"; VStr "SYSADMIN"; VNone; VNone]].

(** A database listing whose first name is NULL. *)
Definition nameless_databases : list row :=
  [[VNone; VStr "2024-03-01 09:00:00"; VStr "SYSADMIN"; VNone; VNone]].

Definition resolve (dbs : list row) (count : Z) : Outcome unit triple :=
  Sample.resolve dbs Sample.schemas Sample.tables Sample.order_columns count.

(** The orders table keyed by a column the diff does not carry. *)
Definition orders_by_amount : triple :=
  (VStr "SALES.PUBLIC.ORDERS", VStr "AMOUNT", Some [VStr "ID"; VStr "AMOUNT"]).

(** The page over the sample catalog, engine and user. *)
Definition page (schs : list row) (pressed : bool) (w : Sample.Warehouse)
  : Outcome Sample.Warehouse unit :=
  script Sample.tz
    (Sample.catalog Sample.databases schs Sample.tables Sample.order_columns)
    Sample.first_option _ (Some "snowflake://analyst@acme/SALES") _ Sample.connect
    Sample.engine Sample.read_sql Sample.to_csv pressed w.

(** A reader of a diff table that was stored without its flag columns. *)
Definition read_unflagged (query : string) (w : Sample.Warehouse) : exn + Materialized :=
  match Sample.read_sql query w with
  | inr m => inr (mkMaterialized None None (other_labels m) (other_cells m))
  | inl e => inl e
  end.

End Cases.

(** * Properties *)

(** ** The three buckets *)

Lemma series_not_map {A} (f : A -> bool) (l : list A) :
  series_not (map f l) = map (fun x => negb (f x)) l.
Proof. unfold series_not. apply map_map. Qed.

Lemma series_and_map {A} (f g : A -> bool) (l : list A) :
  series_and (map f l) (map g l) = map (fun x => f x && g x) l.
Proof.
  unfold series_and.
  induction l as [|x l IH]; simpl; [reflexivity | now rewrite IH].
Qed.

Lemma loc_rows_filter (f : DiffRow -> bool) (l : list DiffRow) :
  map fst (filter snd (combine l (map f l))) = filter f l.
Proof.
  induction l as [|x l IH]; simpl; [reflexivity|].
  destruct (f x); simpl; now rewrite IH.
Qed.

(** The column-wise masks of lines 131-133 select the rows that satisfy the
    row-wise conditions. *)
Lemma not_in_target_rows (d : DiffFrame) :
  rows (not_in_target d) = filter MissingInTarget (rows d).
Proof.
  unfold not_in_target, loc, flag_a, flag_b; simpl.
  rewrite series_not_map, series_and_map. apply loc_rows_filter.
Qed.

Lemma not_in_source_rows (d : DiffFrame) :
  rows (not_in_source d) = filter MissingInSource (rows d).
Proof.
  unfold not_in_source, loc, flag_a, flag_b; simpl.
  rewrite series_not_map, series_and_map. apply loc_rows_filter.
Qed.

Lemma value_mismatch_rows (d : DiffFrame) :
  rows (value_mismatch d) = filter ValueMismatch (rows d).
Proof.
  unfold value_mismatch, loc, flag_a, flag_b; simpl.
  rewrite !series_not_map, series_and_map. apply loc_rows_filter.
Qed.

Lemma one_bucket_per_row (r : DiffRow) :
  is_exclusive_a r && is_exclusive_b r = false ->
  exactly_one (MissingInTarget r) (MissingInSource r) (ValueMismatch r).
Proof.
  unfold exactly_one, MissingInTarget, MissingInSource, ValueMismatch.
  destruct (is_exclusive_a r), (is_exclusive_b r); simpl; intros H;
    try discriminate; tauto.
Qed.

Lemma three_filters_permutation {A} (p q s : A -> bool) (l : list A) :
  (forall x, In x l -> exactly_one (p x) (q x) (s x)) ->
  Permutation (filter p l ++ filter q l ++ filter s l) l.
Proof.
  induction l as [|x l IH]; intros H; simpl; [constructor|].
  assert (IH' : Permutation (filter p l ++ filter q l ++ filter s l) l)
    by (apply IH; intros y Hy; apply H; now right).
  destruct (H x (or_introl eq_refl)) as [(Hp & Hq & Hs) | [(Hp & Hq & Hs) | (Hp & Hq & Hs)]];
    rewrite Hp, Hq, Hs; simpl.
  - now constructor.
  - symmetry. apply Permutation_cons_app. now symmetry.
  - symmetry. rewrite app_assoc. apply Permutation_cons_app.
    rewrite <- app_assoc. now symmetry.
Qed.

Lemma claims_not_in_target d r :
  claims (not_in_target d) r <-> In r (rows d) /\ MissingInTarget r = true.
Proof. unfold claims. rewrite not_in_target_rows. apply filter_In. Qed.

Lemma claims_not_in_source d r :
  claims (not_in_source d) r <-> In r (rows d) /\ MissingInSource r = true.
Proof. unfold claims. rewrite not_in_source_rows. apply filter_In. Qed.

Lemma claims_value_mismatch d r :
  claims (value_mismatch d) r <-> In r (rows d) /\ ValueMismatch r = true.
Proof. unfold claims. rewrite value_mismatch_rows. apply filter_In. Qed.

(** C1: when no row of the materialized diff has both flags set, exactly one
    of the three buckets claims each row of the result, the three buckets
    are pairwise disjoint, and together they hold the rows of the whole
    result, each as often as the result does. *)
Theorem buckets_partition (diff_op : DiffFrame) :
  (forall r, In r (rows diff_op) -> is_exclusive_a r && is_exclusive_b r = false) ->
  (forall r, In r (rows diff_op) ->
     exactly_one_of (claims (not_in_target diff_op) r)
                    (claims (not_in_source diff_op) r)
                    (claims (value_mismatch diff_op) r)) /\
  disjoint (not_in_target diff_op) (not_in_source diff_op) /\
  disjoint (not_in_target diff_op) (value_mismatch diff_op) /\
  disjoint (not_in_source diff_op) (value_mismatch diff_op) /\
  Permutation
    (rows (not_in_target diff_op) ++ rows (not_in_source diff_op)
       ++ rows (value_mismatch diff_op))
    (rows diff_op).
Proof.
  intros Hpre. repeat split.
  - intros r Hr. unfold exactly_one_of.
    rewrite claims_not_in_target, claims_not_in_source, claims_value_mismatch.
    destruct (one_bucket_per_row r (Hpre r Hr)) as [(Hp & Hq & Hs) | [(Hp & Hq & Hs) | (Hp & Hq & Hs)]];
      rewrite Hp, Hq, Hs; intuition congruence.
  - intros r [H1 H2]. apply claims_not_in_target in H1. apply claims_not_in_source in H2.
    destruct H1 as [_ H1], H2 as [_ H2]. revert H1 H2.
    unfold MissingInTarget, MissingInSource.
    destruct (is_exclusive_a r), (is_exclusive_b r); discriminate.
  - intros r [H1 H2]. apply claims_not_in_target in H1. apply claims_value_mismatch in H2.
    destruct H1 as [_ H1], H2 as [_ H2]. revert H1 H2.
    unfold MissingInTarget, ValueMismatch.
    destruct (is_exclusive_a r), (is_exclusive_b r); discriminate.
  - intros r [H1 H2]. apply claims_not_in_source in H1. apply claims_value_mismatch in H2.
    destruct H1 as [_ H1], H2 as [_ H2]. revert H1 H2.
    unfold MissingInSource, ValueMismatch.
    destruct (is_exclusive_a r), (is_exclusive_b r); discriminate.
  - rewrite not_in_target_rows, not_in_source_rows, value_mismatch_rows.
    apply three_filters_permutation.
    intros r Hr. apply one_bucket_per_row. now apply Hpre.
Qed.

(** C2: the four-row example, whatever the other cells are: one row is
    missing in the target, one in the source, and two differ in value. *)
Theorem example_counts (lbls : list string) (c1 c2 c3 c4 : row) :
  bucket_counts
    (mkDiffFrame lbls
       [mkDiffRow true false c1; mkDiffRow false true c2;
        mkDiffRow false false c3; mkDiffRow false false c4])
  = (1, 1, 2).
Proof. reflexivity. Qed.

(** ** The resolver *)

Lemma append_assoc (a b c : string) : (a +:+ b) +:+ c = a +:+ (b +:+ c).
Proof. induction a as [|x a IH]; simpl; [reflexivity | now rewrite IH]. Qed.

Lemma pd_DataFrame_inr rows labels df :
  pd_DataFrame rows labels = inr df ->
  width rows = length labels /\ df = mkDataFrame labels (map (pad (width rows)) rows).
Proof.
  unfold pd_DataFrame. destruct (Nat.eqb_spec (width rows) (length labels)); intros H.
  - now inversion H.
  - discriminate.
Qed.

(** Unfolds the monad on the goal and splits on the next thing the run
    depends on. *)
Ltac unfold_run :=
  cbv beta iota zeta delta
    [bind ret raise lift try_except emit raise_if logging_error st_error
     run_query_sf st_selectbox is_empty app].

Ltac split_run :=
  match goal with
  | |- context [match ?x with _ => _ end] =>
      lazymatch x with
      | context [match _ with _ => _ end] => fail
      | _ => destruct x eqn:?
      end
  end.

Ltac run_cases := unfold_run; repeat (split_run; unfold_run).

(** Decides the comparisons of widget keys [count + i]. *)
Ltac same_keys :=
  repeat match goal with
         | |- context [Z.eqb ?a ?b] => destruct (Z.eqb_spec a b); try (exfalso; lia)
         end.

Section ResolverFacts.
Context {W : Type}.
Variable current_tz : string.
Variable fetchall : string -> exn + list row.
Variable selected : Z -> list value -> value.

Local Abbreviation resolve := (@load_sf_db_list W current_tz fetchall selected).
Local Abbreviation resolve_try := (@load_sf_db_list_try W current_tz fetchall selected).

(** A run of the [try] suite that returns has asked four queries, each
    answered with rows of the expected shape. *)
Lemma try_success_well_shaped count w t :
  result (resolve_try count w) = inr t ->
  forall k q a, nth_error (queries (out (resolve_try count w))) k = Some (q, a) ->
                well_shaped k a = true.
Proof.
  unfold load_sf_db_list_try.
  run_cases; cbn [result out queries flat_map app]; try discriminate.
  intros _ k q a Hk.
  repeat match goal with
         | H : pd_DataFrame _ _ = inr _ |- _ => apply pd_DataFrame_inr in H; destruct H as [H _]
         end.
  do 4 (destruct k as [|k];
        [injection Hk as <- <-; cbn [well_shaped is_empty negb andb expected_columns];
         now apply Nat.eqb_eq |]).
  destruct k; discriminate.
Qed.

(** The resolver leaves the warehouse as it found it. *)
Lemma try_wh count w : wh (resolve_try count w) = w.
Proof.
  unfold load_sf_db_list_try.
  run_cases; reflexivity.
Qed.

(** What [load_sf_db_list] does with the outcome of its [try] suite. *)
Lemma resolve_of_try count w :
  resolve count w =
  match resolve_try count w with
  | mkOutcome (inr t) w' tr => mkOutcome (inr t) w' tr
  | mkOutcome (inl e) w' tr =>
      mkOutcome (inr unresolved) w'
        (tr ++ [LoggingError (load_error_prefix +:+ exn_str e);
                StError (load_error_prefix +:+ exn_str e)])
  end.
Proof.
  unfold load_sf_db_list, load_sf_db_list_except.
  unfold try_except at 1.
  destruct (load_sf_db_list_try current_tz fetchall selected count w) as [[e|t] w' tr];
    reflexivity.
Qed.

Lemma queries_app tr1 tr2 : queries (tr1 ++ tr2) = queries tr1 ++ queries tr2.
Proof. unfold queries. apply flat_map_app. Qed.

Lemma resolve_queries count w :
  queries (out (resolve count w)) = queries (out (resolve_try count w)).
Proof.
  rewrite resolve_of_try.
  destruct (resolve_try count w) as [[e|t] w' tr]; cbn [out]; [|reflexivity].
  rewrite queries_app. cbn. now rewrite app_nil_r.
Qed.

(** [load_sf_db_list] never raises. *)
Lemma resolve_returns count w : exists t, result (resolve count w) = inr t.
Proof.
  rewrite resolve_of_try.
  destruct (resolve_try count w) as [[e|t] w' tr]; cbn [result]; eauto.
Qed.

(** When some query of the run was not answered with rows of the expected
    shape, [load_sf_db_list] logs and shows the error and returns
    [(None, None, None)]. *)
Lemma resolve_ill_shaped count w k q a :
  nth_error (queries (out (resolve count w))) k = Some (q, a) ->
  well_shaped k a = false ->
  exists e tr,
    resolve count w =
    mkOutcome (inr unresolved) w
      (tr ++ [LoggingError (load_error_prefix +:+ exn_str e);
              StError (load_error_prefix +:+ exn_str e)]).
Proof.
  intros Hk Hbad. rewrite resolve_queries in Hk.
  pose proof (try_success_well_shaped count w) as Hok.
  pose proof (try_wh count w) as Hw.
  rewrite resolve_of_try.
  destruct (resolve_try count w) as [[e|t] w' tr] eqn:E; cbn [result out wh] in *.
  - exists e, tr. now subst w'.
  - rewrite (Hok t eq_refl k q a Hk) in Hbad. discriminate.
Qed.

Lemma in_queries q a tr : In (Query q a) tr -> In (q, a) (queries tr).
Proof.
  intros H. unfold queries. apply in_flat_map.
  exists (Query q a). split; [assumption | now left].
Qed.

(** X26: in a run where every catalog query is answered with rows, as wide
    as the frame of its step is labelled (five columns for the databases,
    the schemas and the tables, eleven for the columns), and the select
    boxes with keys [count + 1], [count + 2] and [count + 3] return the
    strings [d], [s] and [t], the resolver returns a triple whose qualified
    name is [d + "." + s + "." + t]. *)
Theorem resolver_qualified_name count w d s t :
  all_well_shaped 0 (queries (out (resolve count w))) = true ->
  picked (count + 1) (out (resolve count w)) = Some (VStr d) ->
  picked (count + 2) (out (resolve count w)) = Some (VStr s) ->
  picked (count + 3) (out (resolve count w)) = Some (VStr t) ->
  exists key_column columns,
    result (resolve count w) =
    inr (VStr (d +:+ "." +:+ s +:+ "." +:+ t), key_column, Some columns).
Proof.
  unfold load_sf_db_list, load_sf_db_list_except, load_sf_db_list_try.
  run_cases; cbn [result out queries flat_map app all_well_shaped well_shaped picked
                  is_empty negb andb expected_columns].
  all: try discriminate.
  all: same_keys.
  all: intros Hshape Hd Hs Ht; try discriminate.
  all: injection Hd as Hd; try injection Hs as Hs; try injection Ht as Ht.
  all: repeat (apply andb_prop in Hshape; destruct Hshape as [? Hshape]).
  all: unfold pd_DataFrame in *.
  all: repeat match goal with
              | H : Nat.eqb ?a ?b = true, H' : context [Nat.eqb ?a ?b] |- _ => rewrite H in H'
              end.
  all: try discriminate.
  all: repeat match goal with
              | H : inr _ = inr _ |- _ => injection H as H; subst
              end.
  all: unfold getitem in *; cbn [columns data index_of schema_columns table_columns
                                 column_columns String.eqb Ascii.eqb Bool.eqb] in *.
  all: try discriminate.
  all: try rewrite Hd in *; try rewrite Hs in *; try rewrite Ht in *.
  all: cbn [str_add] in *; try discriminate.
  all: repeat match goal with
              | H : py_add (VStr _) (VStr _) = _ |- _ => cbn [py_add str_add] in H
              | H : inr _ = inr _ |- _ => injection H as H; subst
              | H : inr _ = inl _ |- _ => discriminate H
              end.
  do 2 eexists. do 3 f_equal.
  now rewrite !append_assoc.
Qed.
(** C4: in a run where a catalog query is answered with no rows, the
    resolver returns [(None, None, None)]; it returns, it does not raise. *)
Theorem resolver_empty_answer count w q :
  In (Query q (inr [])) (out (resolve count w)) ->
  result (resolve count w) = inr unresolved.
Proof.
  intros H. apply in_queries, In_nth_error in H. destruct H as [k Hk].
  destruct (resolve_ill_shaped count w k q (inr []) Hk eq_refl) as (e & tr & ->).
  reflexivity.
Qed.

(** C6: in a run where the rows answered at some step do not have the
    number of columns that step expects, the resolver logs the error, shows
    it to the user and returns [(None, None, None)]. *)
Theorem resolver_shape_mismatch count w step q rows :
  nth_error (queries (out (resolve count w))) step = Some (q, inr rows) ->
  width rows <> length (expected_columns step) ->
  result (resolve count w) = inr unresolved /\
  exists e tr,
    out (resolve count w) =
    tr ++ [LoggingError (load_error_prefix +:+ exn_str e);
           StError (load_error_prefix +:+ exn_str e)].
Proof.
  intros Hk Hw.
  assert (Hbad : well_shaped step (inr rows) = false).
  { cbn [well_shaped]. apply Nat.eqb_neq in Hw. rewrite Hw. apply andb_false_r. }
  destruct (resolve_ill_shaped count w step q (inr rows) Hk Hbad) as (e & tr & ->).
  split; [reflexivity | now exists e, tr].
Qed.

Lemma try_column_listing_empty count w q :
  nth_error (queries (out (resolve_try count w))) 3 = Some (q, inr []) ->
  result (resolve_try count w) = inl (ValueError "No columns found.").
Proof.
  unfold load_sf_db_list_try.
  run_cases; cbn [result out queries flat_map app nth_error]; intros H;
    try discriminate; reflexivity.
Qed.

(** C10: when the column listing, the fourth query of a run, is answered
    with no rows, the exception raised is the empty-result one of line 78,
    and the message shown to the user contains "No columns found.". *)
Theorem column_listing_empty count w q :
  nth_error (queries (out (resolve count w))) 3 = Some (q, inr []) ->
  result (resolve_try count w) = inl (ValueError "No columns found.") /\
  empty_result_error (ValueError "No columns found.") = true /\
  In (StError (load_error_prefix +:+ exn_str (ValueError "No columns found.")))
     (out (resolve count w)) /\
  contains "No columns found."
           (load_error_prefix +:+ exn_str (ValueError "No columns found.")) /\
  result (resolve count w) = inr unresolved.
Proof.
  intros H. rewrite resolve_queries in H.
  apply try_column_listing_empty in H.
  rewrite resolve_of_try.
  destruct (resolve_try count w) as [[e|t] w' tr]; cbn [result out] in *; [|discriminate].
  injection H as ->.
  repeat split.
  - apply in_or_app. right. right. left. reflexivity.
  - exists load_error_prefix, "". reflexivity.
Qed.

(** The database listing that the query of line 54 asks for has four
    columns; the frame of line 58 is given five labels. *)
Lemma four_database_columns_rejected count w rows :
  fetchall (db_query current_tz) = inr rows ->
  rows <> [] ->
  width rows = 4 ->
  resolve count w =
  mkOutcome (inr unresolved) w
    [Query (db_query current_tz) (inr rows);
     Print "db_list:" rows;
     LoggingError (load_error_prefix +:+ "5 columns passed, passed data had 4 columns");
     StError (load_error_prefix +:+ "5 columns passed, passed data had 4 columns")].
Proof.
  intros Hq Hne Hw.
  unfold load_sf_db_list, load_sf_db_list_except, load_sf_db_list_try.
  unfold_run. rewrite Hq.
  destruct rows as [|r rows]; [contradiction|].
  unfold pd_DataFrame. rewrite Hw. reflexivity.
Qed.
End ResolverFacts.

(** ** The classifier *)

Lemma error_messages_app tr1 tr2 :
  error_messages (tr1 ++ tr2) = error_messages tr1 ++ error_messages tr2.
Proof. unfold error_messages. apply flat_map_app. Qed.

Lemma calls_no_messages tr :
  Forall (fun e => engine_call e = true) tr -> error_messages tr = [].
Proof.
  induction 1 as [|x tr Hx _ IH]; [reflexivity|].
  destruct x; try discriminate; exact IH.
Qed.

Lemma calls_show_nothing tr :
  Forall (fun e => engine_call e = true) tr -> filter shows_bucket tr = [].
Proof.
  induction 1 as [|x tr Hx _ IH]; [reflexivity|].
  destruct x; try discriminate; exact IH.
Qed.

Ltac unfold_diff :=
  cbv beta iota zeta delta
    [bind ret raise lift try_except emit raise_if logging_error st_error
     connect_to_table diff_tables read_sql_query app].

Ltac diff_cases := unfold_diff; repeat (split_run; unfold_diff).

Section ClassifierFacts.
Context {W : Type}.
Variable ConnInfo : Type.
Variable SNOWFLAKE_CONN_INFO : option ConnInfo.
Variable TableSegment : Type.
Variable connect : ConnInfo -> value -> value -> exn + TableSegment.
Variable engine :
  TableSegment -> TableSegment -> option (list value) -> string -> W -> option exn * W.
Variable read_sql : string -> W -> exn + Materialized.
Variable to_csv : DiffFrame -> string.

Local Abbreviation diff := (@show_table_diff W _ SNOWFLAKE_CONN_INFO _ connect engine read_sql to_csv).
Local Abbreviation fetch_diff := (@materialized_diff W _ SNOWFLAKE_CONN_INFO _ connect engine read_sql).
Local Abbreviation split_diff := (@partitioned W _ SNOWFLAKE_CONN_INFO _ connect engine read_sql).

(** C7: when the qualified name of the source or of the target is [None],
    the handler shows the error that both tables must be selected and does
    nothing else: no table is bound, the engine is not run, nothing is read
    back, and the warehouse is as it was. *)
Theorem diff_needs_both_tables source target w :
  fst (fst source) = VNone \/ fst (fst target) = VNone ->
  diff source target w = mkOutcome (inr tt) w [StError select_tables_msg].
Proof.
  destruct source as [[sn sk] sc], target as [[tn tk] tc]; cbn [fst snd].
  unfold show_table_diff, show_table_diff_try.
  intros [-> | ->]; cbn [truthy andb]; [|rewrite andb_false_r]; reflexivity.
Qed.

(** The engine is called only with two selected tables. *)
Lemma engine_called_only_when_selected source target w e :
  In e (out (diff source target w)) -> engine_call e = true ->
  truthy (fst (fst source)) = true /\ truthy (fst (fst target)) = true.
Proof.
  unfold show_table_diff, show_table_diff_try.
  destruct (truthy (fst (fst source))), (truthy (fst (fst target)));
    cbn [andb]; try (split; reflexivity).
  all: unfold_diff; cbn [out]; intros [<- | []]; discriminate.
Qed.

(** Binding the tables, running the engine and reading back show nothing. *)
Lemma fetch_diff_shows_nothing source target w :
  Forall (fun e => engine_call e = true) (out (fetch_diff source target w)).
Proof.
  destruct source as [[sn sk] sc], target as [[tn tk] tc].
  unfold materialized_diff.
  diff_cases; cbn [out]; repeat constructor.
Qed.

(** So does looking up the flag columns. *)
Lemma split_diff_shows_nothing source target w :
  Forall (fun e => engine_call e = true) (out (split_diff source target w)).
Proof.
  pose proof (fetch_diff_shows_nothing source target w) as H.
  unfold partitioned. unfold bind, lift.
  destruct (fetch_diff source target w) as [[e|m] w' tr]; cbn [out] in *; [exact H|].
  now rewrite app_nil_r.
Qed.

(** The handler over the two phases of its [try] suite: what lines 123-133
    raise is caught at once; what they return is shown. *)
Lemma diff_after_split source target w :
  truthy (fst (fst source)) = true ->
  truthy (fst (fst target)) = true ->
  match result (split_diff source target w) with
  | inl e =>
      diff source target w =
      mkOutcome (inr tt) (wh (split_diff source target w))
        (out (split_diff source target w)
           ++ [StError diff_failed_msg; LoggingError (exn_str e)])
  | inr d =>
      exists m, result (fetch_diff source target w) = inr m /\ flagged m = inr d /\
                wh (split_diff source target w) = wh (fetch_diff source target w) /\
                out (split_diff source target w) = out (fetch_diff source target w)
  end.
Proof.
  intros Hs Ht.
  unfold show_table_diff, show_table_diff_try, show_table_diff_except, partitioned,
    show_buckets.
  rewrite Hs, Ht. cbn [andb].
  unfold try_except, bind, lift.
  destruct (fetch_diff source target w) as [[e|m] w' tr]; cbn [result out wh].
  - reflexivity.
  - destruct (flagged m) as [e|d] eqn:Hflag; cbn [result out wh].
    + unfold st_error, logging_error, emit. now rewrite app_nil_r.
    + exists m. rewrite app_nil_r. repeat split. exact Hflag.
Qed.

(** X27: with [SNOWFLAKE_CONN_INFO] unbound, the handler on two selected
    tables stops at line 123, where the name is used: it calls no
    collaborator, leaves the warehouse as it was, shows the message that the
    diff failed and logs the [NameError]. *)
Theorem unbound_conn_info_run source target w :
  SNOWFLAKE_CONN_INFO = None ->
  truthy (fst (fst source)) = true ->
  truthy (fst (fst target)) = true ->
  diff source target w =
  mkOutcome (inr tt) w
    [StError diff_failed_msg; LoggingError "name 'SNOWFLAKE_CONN_INFO' is not defined"].
Proof.
  intros Hnone Hs Ht.
  destruct source as [[sn sk] sc], target as [[tn tk] tc]; cbn [fst snd] in *.
  unfold show_table_diff, show_table_diff_try, show_table_diff_except, materialized_diff.
  cbn [fst snd]. rewrite Hs, Ht. cbn [andb].
  unfold connect_to_table. rewrite Hnone. reflexivity.
Qed.

(** The chart and the first download are on the page before the key column
    of the first bucket is looked up: when the diff has no column of that
    name, they stay above the error message. *)
Lemma missing_key_column_after_chart m diff_op source_key_col (w : W) :
  flagged m = inr diff_op ->
  diff_getitem (not_in_target diff_op) (py_str source_key_col +:+ "_a")
  = inl (KeyError (py_str source_key_col +:+ "_a")) ->
  show_buckets to_csv m source_key_col w =
  mkOutcome (inl (KeyError (py_str source_key_col +:+ "_a"))) w
    [StPlotlyChart (fig_count (bucket_counts diff_op));
     StSubheader "Missing in Target Table";
     StDownloadButton "Click to Download" (to_csv (not_in_target diff_op))
       "not_in_target.csv" "text/csv" "download-csv-not_in_target"].
Proof.
  intros Hflag Hkey. unfold show_buckets. unfold_diff. rewrite Hflag, Hkey. reflexivity.
Qed.
End ClassifierFacts.

(** ** The script *)

Section ScriptFacts.
Context {W : Type}.
Variable current_tz : string.
Variable fetchall : string -> exn + list row.
Variable selected : Z -> list value -> value.

(** Each [with col:] block binds the triple that [load_sf_db_list] returns;
    its own [except] clause is not reached. *)
Lemma side_binds header count_in failed_msg log_prefix (w : W) :
  exists t,
    result (side current_tz fetchall selected header count_in failed_msg log_prefix w)
    = inr (Some t) /\
    result (load_sf_db_list current_tz fetchall selected count_in w) = inr t.
Proof.
  destruct (resolve_returns current_tz fetchall selected count_in w) as [t Ht].
  exists t. split; [|exact Ht].
  unfold side. unfold_run.
  destruct (load_sf_db_list current_tz fetchall selected count_in w) as [[e|t'] w' tr];
    cbn [result] in Ht; [discriminate|].
  injection Ht as ->.
  destruct (truthy (fst (fst t))); reflexivity.
Qed.
End ScriptFacts.

(** ** More on the resolver *)

Lemma str_add_inr p v r :
  str_add p v = inr r -> exists t, v = VStr t /\ r = p +:+ t.
Proof. destruct v; cbn; intros H; try discriminate. injection H as <-. eauto. Qed.

Lemma str_add_inl p v e :
  str_add p v = inl e -> is_str v = false /\ e = TypeError (concatenate_message v).
Proof. destruct v; cbn; intros H; try discriminate; injection H as <-; split; reflexivity. Qed.

Lemma pd_DataFrame_inl answer labels e :
  pd_DataFrame answer labels = inl e ->
  width answer <> length labels /\ e = ValueError (mismatch_message labels answer).
Proof.
  unfold pd_DataFrame. destruct (Nat.eqb_spec (width answer) (length labels)); intros H.
  - discriminate.
  - injection H as <-. split; [assumption | reflexivity].
Qed.

Lemma nth_pad i n r : nth i (pad n r) VNone = nth i r VNone.
Proof.
  unfold pad. destruct (Nat.lt_ge_cases i (length r)) as [Hlt | Hge].
  - now apply app_nth1.
  - rewrite app_nth2 by assumption. rewrite nth_repeat.
    symmetry. now apply nth_overflow.
Qed.

(** A column of a frame holds the cells of the answer's rows, [None] where
    a row is too short. *)
Lemma column_at_frame_rows i answer :
  column_at i (frame_rows answer) = map (fun r => nth i r VNone) answer.
Proof.
  unfold column_at, frame_rows. rewrite map_map.
  apply map_ext. intros r. apply nth_pad.
Qed.

(** Brings the equations a case split has left into the form of facts
    about the answers and the picks. *)
Ltac tidy_run :=
  repeat match goal with
    | H : pd_DataFrame _ _ = inr _ |- _ =>
        apply pd_DataFrame_inr in H; destruct H as [? ->]
    | H : pd_DataFrame _ _ = inl _ |- _ =>
        apply pd_DataFrame_inl in H; destruct H as [? ->]
    | H : str_add _ _ = inr _ |- _ =>
        let t := fresh "name" in
        let E := fresh "Pick" in
        apply str_add_inr in H; destruct H as (t & E & ->)
    | H : str_add _ _ = inl _ |- _ =>
        apply str_add_inl in H; destruct H as [? ->]
    | H : ?f ?k ?o = VStr _, H' : context [?f ?k ?o] |- _ =>
        rewrite H in H'
    | H : VStr _ = VStr _ |- _ => injection H as H; subst
    | H : getitem (mkDataFrame _ _) _ = _ |- _ =>
        unfold getitem in H;
        cbn [columns data index_of schema_columns table_columns column_columns
             String.eqb Ascii.eqb Bool.eqb] in H
    | H : py_add (VStr _) (VStr _) = _ |- _ => cbn [py_add str_add] in H
    | H : inr _ = inr _ |- _ => injection H as H; subst
    | H : inr _ = inl _ |- _ => discriminate H
    | H : is_str (VStr _) = false |- _ => discriminate H
    | H : inl _ = inr _ |- _ => discriminate H
    | H : inl _ = inl _ |- _ => injection H as H; subst
    end.

(** Replaces the picks in the goal by the names they are known to be. *)
Ltac use_picks :=
  repeat match goal with
    | P : ?f ?k ?o = VStr _ |- context [?f ?k ?o] => rewrite P
    end.

(** Gives the names picked so far for three names asked. *)
Ltac exists_picks count :=
  let d := lazymatch goal with
           | P : _ (count + 1)%Z _ = VStr ?x |- _ => constr:(x)
           | _ => constr:(EmptyString)
           end in
  let s := lazymatch goal with
           | P : _ (count + 2)%Z _ = VStr ?x |- _ => constr:(x)
           | _ => constr:(EmptyString)
           end in
  let t := lazymatch goal with
           | P : _ (count + 3)%Z _ = VStr ?x |- _ => constr:(x)
           | _ => constr:(EmptyString)
           end in
  exists d, s, t.

Section ResolverRuns.
Context {W : Type}.
Variable current_tz : string.
Variable fetchall : string -> exn + list row.
Variable selected : Z -> list value -> value.

Local Abbreviation resolve := (@load_sf_db_list W current_tz fetchall selected).
Local Abbreviation resolve_try := (@load_sf_db_list_try W current_tz fetchall selected).

(** The whole run of a [try] suite that returns. *)
Lemma try_success_run count w t :
  result (resolve_try count w) = inr t ->
  exists dbs schs tbls cols d s tb,
    well_shaped 0 (inr dbs) = true /\ well_shaped 1 (inr schs) = true /\
    well_shaped 2 (inr tbls) = true /\ well_shaped 3 (inr cols) = true /\
    selected (count + 1) (column_at 0 (frame_rows dbs)) = VStr d /\
    selected (count + 2) (column_at 1 (frame_rows schs)) = VStr s /\
    selected (count + 3) (column_at 1 (frame_rows tbls)) = VStr tb /\
    t = (VStr ((((d +:+ ".") +:+ s) +:+ ".") +:+ tb),
         selected (count + 4) (column_at 2 (frame_rows cols)),
         Some (column_at 2 (frame_rows cols))) /\
    out (resolve_try count w) =
    [Query (catalog_query current_tz 0 d s tb) (inr dbs);
     Print "db_list:" dbs;
     Selectbox "Please select the database that you would like to compare?"
       (column_at 0 (frame_rows dbs)) (count + 1) (VStr d);
     Query (catalog_query current_tz 1 d s tb) (inr schs);
     Print "schema_list:" schs;
     Selectbox "Please select the schema that you would like to compare?"
       (column_at 1 (frame_rows schs)) (count + 2) (VStr s);
     Query (catalog_query current_tz 2 d s tb) (inr tbls);
     Print "Table List:" tbls;
     Selectbox "Please select the table that you would like to compare?"
       (column_at 1 (frame_rows tbls)) (count + 3) (VStr tb);
     Query (catalog_query current_tz 3 d s tb) (inr cols);
     Print "Column List:" cols;
     Selectbox "Please select the unique key (primary key)?"
       (column_at 2 (frame_rows cols)) (count + 4)
       (selected (count + 4) (column_at 2 (frame_rows cols)))].
Proof.
  unfold load_sf_db_list_try.
  run_cases; cbn [result out]; intros Ht; try discriminate.
  tidy_run.
  match goal with
  | P1 : selected (count + 1) _ = VStr ?d, P2 : selected (count + 2) _ = VStr ?s,
    P3 : selected (count + 3) _ = VStr ?tb,
    Q0 : fetchall (db_query _) = inr ?dbs, Q1 : fetchall ((_ ++ ?d) ++ _) = inr ?schs,
    Q2 : fetchall ((((_ ++ ?d) ++ _) ++ ?s) ++ _) = inr ?tbls,
    Q3 : fetchall ((((((_ ++ ?d) ++ _) ++ ?s) ++ _) ++ ?tb) ++ _) = inr ?cols |- _ =>
      exists dbs, schs, tbls, cols, d, s, tb;
      rewrite P1, P2, P3
  end.
  cbn [well_shaped is_empty negb andb expected_columns].
  repeat match goal with H : width _ = length _ |- _ => apply Nat.eqb_eq in H; rewrite H end.
  repeat split; try assumption.
Qed.

(** Every run of the resolver, case by case, with the observations on its
    trace computed. *)
Ltac resolver_runs :=
  unfold load_sf_db_list, load_sf_db_list_except, load_sf_db_list_try;
  run_cases;
  cbn [result out wh queries flat_map app picked offered selectbox_keys
       error_messages log_messages];
  same_keys; tidy_run.

(** X2: a run asks at most four catalog queries, and the text of each one
    after the first is built from the names picked so far: the schemas of the
    picked database, the tables of the picked schema, the columns of the
    picked table. *)
Theorem queries_scoped_by_picks count w step q a :
  nth_error (queries (out (resolve count w))) step = Some (q, a) ->
  exists d s t,
    q = catalog_query current_tz step d s t /\
    step < 4 /\
    (1 <= step -> picked (count + 1) (out (resolve count w)) = Some (VStr d)) /\
    (2 <= step -> picked (count + 2) (out (resolve count w)) = Some (VStr s)) /\
    (3 <= step -> picked (count + 3) (out (resolve count w)) = Some (VStr t)).
Proof.
  resolver_runs.
  all: intros Hq.
  all: destruct step as [|[|[|[|step]]]]; cbn [nth_error] in Hq;
       try (destruct step; discriminate Hq); try discriminate Hq;
       injection Hq as <- <-.
  all: use_picks; exists_picks count; cbn [catalog_query];
       repeat split; try reflexivity; try lia.
Qed.

(** A run in which an answer is not well shaped: the exception raised, and
    no query after it. *)
Lemma ill_shaped_answer_run count w step q a :
  nth_error (queries (out (resolve count w))) step = Some (q, a) ->
  well_shaped step a = false ->
  result (resolve count w) = inr unresolved /\
  error_messages (out (resolve count w)) = [load_error_prefix +:+ exn_str (answer_error step a)] /\
  log_messages (out (resolve count w)) = [load_error_prefix +:+ exn_str (answer_error step a)] /\
  length (queries (out (resolve count w))) = S step /\
  length (selectbox_keys (out (resolve count w))) = step.
Proof.
  resolver_runs.
  all: intros Hq Hbad.
  all: destruct step as [|[|[|[|step]]]]; cbn [nth_error] in Hq;
       try (destruct step; discriminate Hq); try discriminate Hq;
       injection Hq as <- <-.
  all: cbn [well_shaped is_empty negb andb expected_columns] in Hbad; try discriminate Hbad.
  all: repeat match goal with
         | H : width _ = length _ |- _ => apply Nat.eqb_eq in H; rewrite H in Hbad
         end; try discriminate Hbad.
  all: repeat split.
Qed.

(** X3: when a catalog query raises, the resolver returns
    [(None, None, None)] and shows and logs the exception's own message
    behind the prefix of lines 86-87. *)
Theorem query_error_reported count w step q e :
  nth_error (queries (out (resolve count w))) step = Some (q, inl e) ->
  result (resolve count w) = inr unresolved /\
  error_messages (out (resolve count w)) = [load_error_prefix +:+ exn_str e] /\
  log_messages (out (resolve count w)) = [load_error_prefix +:+ exn_str e].
Proof.
  intros Hq.
  destruct (ill_shaped_answer_run count w step q (inl e) Hq eq_refl) as (Hr & He & Hl & _).
  auto.
Qed.

(** X4: when the listing of a step has no rows, the message shown and logged
    is the one of that step: no databases, schemas, tables or columns found. *)
Theorem empty_listing_reported count w step q :
  nth_error (queries (out (resolve count w))) step = Some (q, inr []) ->
  result (resolve count w) = inr unresolved /\
  error_messages (out (resolve count w)) = [load_error_prefix +:+ empty_message step] /\
  log_messages (out (resolve count w)) = [load_error_prefix +:+ empty_message step].
Proof.
  intros Hq.
  destruct (ill_shaped_answer_run count w step q (inr []) Hq eq_refl) as (Hr & He & Hl & _).
  auto.
Qed.

(** X5: when the rows of a step do not have as many columns as the frame of
    that step has labels, the message shown gives both numbers, as pandas
    words it. *)
Theorem shape_mismatch_reported count w step q rows :
  nth_error (queries (out (resolve count w))) step = Some (q, inr rows) ->
  rows <> [] ->
  width rows <> length (expected_columns step) ->
  error_messages (out (resolve count w))
  = [load_error_prefix +:+ str_nat (length (expected_columns step))
       +:+ " columns passed, passed data had " +:+ str_nat (width rows) +:+ " columns"].
Proof.
  intros Hq Hne Hw.
  assert (Hbad : well_shaped step (inr rows) = false).
  { cbn [well_shaped]. apply Nat.eqb_neq in Hw. rewrite Hw. apply andb_false_r. }
  destruct (ill_shaped_answer_run count w step q (inr rows) Hq Hbad) as (_ & He & _).
  rewrite He. destruct rows; [contradiction | reflexivity].
Qed.

(** X6: the query whose answer is not well shaped is the last one of the run,
    and no select box is shown for its step or a later one. *)
Theorem no_step_after_failure count w step q a :
  nth_error (queries (out (resolve count w))) step = Some (q, a) ->
  well_shaped step a = false ->
  length (queries (out (resolve count w))) = S step /\
  length (selectbox_keys (out (resolve count w))) = step.
Proof.
  intros Hq Hbad.
  destruct (ill_shaped_answer_run count w step q a Hq Hbad) as (_ & _ & _ & Hn & Hk).
  auto.
Qed.

(** X7: when the option picked for the database, the schema or the table is
    not a [str] (a NULL name), the concatenation of the next query raises
    [TypeError]; the resolver returns [(None, None, None)] with Python's
    message, and the next select box is not shown. *)
Theorem non_str_pick_reported count w key v :
  picked key (out (resolve count w)) = Some v ->
  key <> (count + 4)%Z ->
  is_str v = false ->
  result (resolve count w) = inr unresolved /\
  error_messages (out (resolve count w))
  = [load_error_prefix +:+ "can only concatenate str (not " +:+ dquote +:+ type_name v
       +:+ dquote +:+ ") to str"] /\
  picked (key + 1) (out (resolve count w)) = None.
Proof.
  resolver_runs.
  all: intros Hp Hk Hv; try discriminate Hp; try lia.
  all: try match goal with
           | P : ?x = VStr _ |- _ => rewrite P in Hp; injection Hp as <-; discriminate Hv
           end.
  all: injection Hp as <-.
  all: repeat split.
Qed.

(** The [try] suite itself shows and logs no error. *)
Lemma try_no_messages count w :
  error_messages (out (resolve_try count w)) = [] /\
  log_messages (out (resolve_try count w)) = [].
Proof.
  unfold load_sf_db_list_try.
  run_cases; cbn [out error_messages log_messages flat_map app]; split; reflexivity.
Qed.

Lemma log_messages_app tr1 tr2 :
  log_messages (tr1 ++ tr2) = log_messages tr1 ++ log_messages tr2.
Proof. unfold log_messages. apply flat_map_app. Qed.

(** A qualified name is not the empty string. *)
Lemma truthy_qualified_name d s t :
  truthy (VStr ((((d +:+ ".") +:+ s) +:+ ".") +:+ t)) = true.
Proof. destruct d; reflexivity. Qed.

(** A run whose result carries a column list is a run whose [try] suite
    returned that result. *)
Lemma resolved_by_try count w name key cols :
  result (resolve count w) = inr (name, key, Some cols) ->
  result (resolve_try count w) = inr (name, key, Some cols) /\
  out (resolve count w) = out (resolve_try count w).
Proof.
  rewrite (resolve_of_try current_tz fetchall selected count w).
  destruct (resolve_try count w) as [[e|t] w' tr]; cbn [result out]; intros H.
  - discriminate.
  - split; [assumption | reflexivity].
Qed.

(** X1: [load_sf_db_list] always returns.  It returns [(None, None, None)] when
    it has shown one error message, which it has also logged with the same
    text; otherwise the qualified name it returns is a non-empty [str], which
    the guard of line 122 accepts, and it has shown and logged no error. *)
Theorem resolver_outcome count w :
  exists t,
    result (resolve count w) = inr t /\
    ((t = unresolved /\
      exists msg, error_messages (out (resolve count w)) = [msg] /\
                  log_messages (out (resolve count w)) = [msg])
     \/
     (truthy (fst (fst t)) = true /\
      error_messages (out (resolve count w)) = [] /\
      log_messages (out (resolve count w)) = [])).
Proof.
  rewrite (resolve_of_try current_tz fetchall selected count w).
  destruct (try_no_messages count w) as [He Hl].
  pose proof (try_success_run count w) as Hrun.
  destruct (resolve_try count w) as [[e|t] w' tr]; cbn [result out] in *.
  - exists unresolved. split; [reflexivity|]. left. split; [reflexivity|].
    exists (load_error_prefix +:+ exn_str e).
    rewrite error_messages_app, log_messages_app, He, Hl. split; reflexivity.
  - exists t. split; [reflexivity|]. right.
    destruct (Hrun t eq_refl) as (dbs & schs & tbls & cols & d & s & tb & Hrest).
    decompose [and] Hrest. subst t. cbn [fst].
    rewrite truthy_qualified_name. auto.
Qed.

(** X8: a result with a column list comes from a run of four well-shaped
    queries, and its qualified name is made of the database, schema and
    table that were picked as [str]s in the first three select boxes. *)
Theorem resolved_name_from_picks count w name key cols :
  result (resolve count w) = inr (name, key, Some cols) ->
  exists d s t,
    name = VStr (d +:+ "." +:+ s +:+ "." +:+ t) /\
    picked (count + 1) (out (resolve count w)) = Some (VStr d) /\
    picked (count + 2) (out (resolve count w)) = Some (VStr s) /\
    picked (count + 3) (out (resolve count w)) = Some (VStr t) /\
    length (queries (out (resolve count w))) = 4 /\
    all_well_shaped 0 (queries (out (resolve count w))) = true.
Proof.
  intros H. apply resolved_by_try in H. destruct H as [H ->].
  destruct (try_success_run count w _ H)
    as (dbs & schs & tbls & rows & d & s & tb & H0 & H1 & H2 & H3 & _ & _ & _ & Ht & ->).
  injection Ht as -> _ _.
  exists d, s, tb.
  cbn [queries flat_map app picked all_well_shaped length]. same_keys.
  rewrite H0, H1, H2, H3, !append_assoc. repeat split.
Qed.

(** X9: the column list returned holds the third cell ([column_name]) of
    every row of the column listing, in the order of the listing; they are
    the options of the key select box, and the key returned is the option
    picked there. *)
Theorem resolved_columns_from_listing count w name key cols :
  result (resolve count w) = inr (name, key, Some cols) ->
  exists q rows,
    nth_error (queries (out (resolve count w))) 3 = Some (q, inr rows) /\
    cols = map (fun r => nth 2 r VNone) rows /\
    offered (count + 4) (out (resolve count w)) = Some cols /\
    picked (count + 4) (out (resolve count w)) = Some key.
Proof.
  intros H. apply resolved_by_try in H. destruct H as [H ->].
  destruct (try_success_run count w _ H)
    as (dbs & schs & tbls & rows & d & s & tb & _ & _ & _ & H3 & _ & _ & _ & Ht & ->).
  injection Ht as _ -> ->.
  exists (catalog_query current_tz 3 d s tb), rows.
  cbn [queries flat_map app picked offered nth_error]. same_keys.
  repeat split.
  apply column_at_frame_rows.
Qed.

(** X10: when a select box returns one of the options it offers, the key
    column returned is one of the columns returned. *)
Theorem key_is_a_listed_column count w name key cols :
  (forall k options, options <> [] -> In (selected k options) options) ->
  result (resolve count w) = inr (name, key, Some cols) ->
  In key cols.
Proof.
  intros Hsel H. apply resolved_by_try in H. destruct H as [H _].
  destruct (try_success_run count w _ H)
    as (dbs & schs & tbls & rows & d & s & tb & _ & _ & _ & H3 & _ & _ & _ & Ht & _).
  injection Ht as _ -> ->.
  apply Hsel.
  destruct rows as [|r rows]; [discriminate H3 | discriminate].
Qed.

(** The select boxes of a run are the first ones of the four, in order. *)
Lemma selectbox_keys_prefix count w :
  exists n, n <= 4 /\
    selectbox_keys (out (resolve count w))
    = firstn n [(count + 1)%Z; (count + 2)%Z; (count + 3)%Z; (count + 4)%Z].
Proof.
  unfold load_sf_db_list, load_sf_db_list_except, load_sf_db_list_try.
  run_cases; cbn [out selectbox_keys flat_map app].
  all: first [ exists 0; split; [lia | reflexivity]
             | exists 1; split; [lia | reflexivity]
             | exists 2; split; [lia | reflexivity]
             | exists 3; split; [lia | reflexivity]
             | exists 4; split; [lia | reflexivity] ].
Qed.

(** X11: [count] only names the widgets: two runs in which the user's picks
    agree widget by widget return the same triple, whatever their counts. *)
Theorem count_only_names_widgets count count' w :
  (forall i options, selected (count + i)%Z options = selected (count' + i)%Z options) ->
  result (resolve count w) = result (resolve count' w).
Proof.
  intros Hsame.
  unfold load_sf_db_list, load_sf_db_list_except, load_sf_db_list_try.
  unfold_run.
  repeat (rewrite <- ?Hsame; split_run; unfold_run).
  all: reflexivity.
Qed.

(** The resolver leaves the warehouse as it found it, and calls no
    collaborator of the classifier and shows no bucket. *)
Lemma resolve_quiet count w :
  wh (resolve count w) = w /\
  filter engine_call (out (resolve count w)) = [] /\
  filter shows_bucket (out (resolve count w)) = [] /\
  download_keys (out (resolve count w)) = [].
Proof.
  unfold load_sf_db_list, load_sf_db_list_except, load_sf_db_list_try.
  run_cases; cbn [wh out filter engine_call shows_bucket download_keys flat_map app];
    repeat split.
Qed.
End ResolverRuns.

(** ** More on the buckets *)

(** X12: each bucket of lines 131-133 holds, in the order of the diff, the
    rows that satisfy its row-wise condition, under the labels of the diff. *)
Theorem buckets_are_filters (diff_op : DiffFrame) :
  rows (not_in_target diff_op) = filter MissingInTarget (rows diff_op) /\
  rows (not_in_source diff_op) = filter MissingInSource (rows diff_op) /\
  rows (value_mismatch diff_op) = filter ValueMismatch (rows diff_op) /\
  labels (not_in_target diff_op) = labels diff_op /\
  labels (not_in_source diff_op) = labels diff_op /\
  labels (value_mismatch diff_op) = labels diff_op.
Proof.
  rewrite not_in_target_rows, not_in_source_rows, value_mismatch_rows.
  repeat split.
Qed.

Lemma buckets_skip_both (l : list DiffRow) :
  Permutation
    (filter MissingInTarget l ++ filter MissingInSource l ++ filter ValueMismatch l)
    (filter (fun r => negb (BothExclusive r)) l).
Proof.
  induction l as [|r l IH]; [constructor|].
  cbn [filter]. unfold MissingInTarget, MissingInSource, ValueMismatch, BothExclusive.
  destruct (is_exclusive_a r), (is_exclusive_b r); cbn [andb negb app].
  - exact IH.
  - now constructor.
  - symmetry. apply Permutation_cons_app. now symmetry.
  - symmetry. rewrite app_assoc. apply Permutation_cons_app.
    rewrite <- app_assoc. now symmetry.
Qed.

(** X13: a row with both flags set is in no bucket; the three buckets
    together hold the other rows, and the three counts add up to the number
    of rows less those with both flags set. *)
Theorem rows_with_both_flags_dropped (diff_op : DiffFrame) :
  (forall r, BothExclusive r = true ->
     ~ claims (not_in_target diff_op) r /\
     ~ claims (not_in_source diff_op) r /\
     ~ claims (value_mismatch diff_op) r) /\
  Permutation
    (rows (not_in_target diff_op) ++ rows (not_in_source diff_op)
       ++ rows (value_mismatch diff_op))
    (filter (fun r => negb (BothExclusive r)) (rows diff_op)) /\
  len (not_in_target diff_op) + len (not_in_source diff_op) + len (value_mismatch diff_op)
    + length (filter BothExclusive (rows diff_op))
  = len diff_op.
Proof.
  split; [|split].
  - intros r Hr.
    rewrite claims_not_in_target, claims_not_in_source, claims_value_mismatch.
    unfold BothExclusive, MissingInTarget, MissingInSource, ValueMismatch in *.
    destruct (is_exclusive_a r), (is_exclusive_b r); try discriminate Hr.
    repeat split; intros [_ H]; discriminate H.
  - rewrite not_in_target_rows, not_in_source_rows, value_mismatch_rows.
    apply buckets_skip_both.
  - pose proof (Permutation_length (buckets_skip_both (rows diff_op))) as Hlen.
    rewrite !length_app in Hlen.
    unfold len. rewrite not_in_target_rows, not_in_source_rows, value_mismatch_rows.
    pose proof (filter_length BothExclusive (rows diff_op)) as Hall.
    lia.
Qed.

(** ** More on the classifier *)

Lemma diff_getitem_length d label s :
  diff_getitem d label = inr s -> length s = len d.
Proof.
  unfold diff_getitem, len, flag_a, flag_b, column_at.
  destruct (String.eqb label "is_exclusive_a"); [|destruct (String.eqb label "is_exclusive_b");
    [|destruct (index_of label (labels d))]]; intros H; try discriminate H;
    injection H as <-; now rewrite !length_map.
Qed.

Lemma diff_getitem_inl d label e :
  diff_getitem d label = inl e -> has_column d label = false /\ e = KeyError label.
Proof.
  unfold diff_getitem, has_column.
  destruct (String.eqb label "is_exclusive_a"); [discriminate|].
  destruct (String.eqb label "is_exclusive_b"); [discriminate|].
  destruct (index_of label (labels d)); [discriminate|].
  intros H. injection H as <-. split; reflexivity.
Qed.

Lemma diff_getitem_inr d label s :
  diff_getitem d label = inr s -> has_column d label = true.
Proof.
  unfold diff_getitem, has_column.
  destruct (String.eqb label "is_exclusive_a"); [reflexivity|].
  destruct (String.eqb label "is_exclusive_b"); [reflexivity|].
  destruct (index_of label (labels d)); [reflexivity | discriminate].
Qed.

(** A bucket has the columns of the diff. *)
Lemma has_column_loc d mask label : has_column (loc d mask) label = has_column d label.
Proof. reflexivity. Qed.

(** Every run of the handler whose guard holds, case by case. *)
Ltac handler_runs :=
  unfold show_table_diff, show_table_diff_try, show_table_diff_except,
    materialized_diff, show_buckets, materialize_table_name, convert_df_csv;
  cbn [fst snd];
  diff_cases;
  cbn [result out wh app flat_map filter shows_bucket engine_call error_messages log_messages
       shown_counts written_series downloads download_keys In].

(** Identifies what was read back in a run with what a hypothesis says
    was read back. *)
Ltac read_back Hread :=
  match goal with
  | R : ?f _ _ = ?x |- _ =>
      tryif constr_eq R Hread then fail
      else (match type of Hread with
            | _ = ?y =>
                let E := fresh "E" in
                assert (E : x = y) by (rewrite <- R; exact Hread);
                clear Hread; rename E into Hread; try discriminate Hread
            end)
  end.

(** Identifies the frame a run has partitioned with the one a hypothesis
    names. *)
Ltac flags_back Hflag :=
  match goal with
  | F : flagged ?m = ?x |- _ =>
      tryif constr_eq F Hflag then fail
      else (rewrite Hflag in F; try discriminate F; injection F as <-)
  end.

(** Reads the hypotheses on the key columns of the buckets as hypotheses on
    the columns of the diff. *)
Ltac key_columns :=
  repeat match goal with
         | H : diff_getitem _ _ = inl _ |- _ =>
             apply diff_getitem_inl in H; destruct H as [H ->];
             unfold not_in_target, not_in_source, value_mismatch in H;
             rewrite has_column_loc in H
         | H : diff_getitem _ _ = inr _ |- _ =>
             apply diff_getitem_inr in H;
             unfold not_in_target, not_in_source, value_mismatch in H;
             rewrite has_column_loc in H
         end.

Section ClassifierRuns.
Context {W : Type}.
Variable ConnInfo : Type.
Variable SNOWFLAKE_CONN_INFO : option ConnInfo.
Variable TableSegment : Type.
Variable connect : ConnInfo -> value -> value -> exn + TableSegment.
Variable engine :
  TableSegment -> TableSegment -> option (list value) -> string -> W -> option exn * W.
Variable read_sql : string -> W -> exn + Materialized.
Variable to_csv : DiffFrame -> string.

Local Abbreviation diff := (@show_table_diff W _ SNOWFLAKE_CONN_INFO _ connect engine read_sql to_csv).
Local Abbreviation fetch_diff := (@materialized_diff W _ SNOWFLAKE_CONN_INFO _ connect engine read_sql).
Local Abbreviation split_diff := (@partitioned W _ SNOWFLAKE_CONN_INFO _ connect engine read_sql).

(** The handler never raises. *)
Lemma diff_returns source target w : result (diff source target w) = inr tt.
Proof.
  destruct source as [[sn sk] sc], target as [[tn tk] tc].
  handler_runs; reflexivity.
Qed.

(** The handler shows no select box, and its download buttons are the first
    ones of the three, in order. *)
Lemma handler_widget_keys source target w :
  selectbox_keys (out (diff source target w)) = [] /\
  exists n,
    download_keys (out (diff source target w))
    = firstn n ["download-csv-not_in_target"; "download-csv-not_in_source";
                "download-csv-value_mismatch"].
Proof.
  destruct source as [[sn sk] sc], target as [[tn tk] tc].
  handler_runs; cbn [selectbox_keys flat_map app]; (split; [reflexivity|]).
  all: first [ exists 0; reflexivity | exists 1; reflexivity
             | exists 2; reflexivity | exists 3; reflexivity ].
Qed.

(** Without two selected tables the handler only shows its message. *)
Lemma diff_unselected source target w :
  truthy (fst (fst source)) && truthy (fst (fst target)) = false ->
  diff source target w = mkOutcome (inr tt) w [StError select_tables_msg].
Proof.
  intros H. unfold show_table_diff, show_table_diff_try. rewrite H. reflexivity.
Qed.

(** X14: the handler never raises, and its page ends in one of three ways:
    complete, with three key columns and no error; the message that both
    tables must be selected and nothing else; or the message that the diff
    failed, with the exception logged and fewer than three key columns. *)
Theorem handler_outcome source target w :
  result (diff source target w) = inr tt /\
  ((error_messages (out (diff source target w)) = [] /\
    log_messages (out (diff source target w)) = [] /\
    length (written_series (out (diff source target w))) = 3)
   \/
   (out (diff source target w) = [StError select_tables_msg])
   \/
   (exists e,
      error_messages (out (diff source target w)) = [diff_failed_msg] /\
      log_messages (out (diff source target w)) = [exn_str e] /\
      length (written_series (out (diff source target w))) < 3)).
Proof.
  destruct source as [[sn sk] sc], target as [[tn tk] tc].
  handler_runs.
  all: split; [reflexivity|].
  all: first [ left; repeat split; reflexivity
             | right; left; reflexivity
             | right; right; eexists; repeat split; cbn [length]; lia ].
Qed.

(** X15: on a page with all three key columns, the three numbers of the
    chart are the lengths of the key columns listed under them. *)
Theorem counts_match_key_columns source target w keys1 keys2 keys3 :
  written_series (out (diff source target w)) = [keys1; keys2; keys3] ->
  shown_counts (out (diff source target w)) = [[length keys1; length keys2; length keys3]].
Proof.
  destruct source as [[sn sk] sc], target as [[tn tk] tc].
  handler_runs.
  all: intros H; try discriminate H.
  injection H as <- <- <-.
  repeat match goal with
         | H : diff_getitem _ _ = inr _ |- _ => apply diff_getitem_length in H; rewrite H
         end.
  reflexivity.
Qed.

(** X16: what is read back is the table the engine was asked to
    materialize, after both tables were bound and the engine ran without
    raising, from the warehouse the engine left. *)
Theorem read_back_after_engine source target w q :
  In (ReadSqlQuery q) (out (diff source target w)) ->
  q = "SELECT * FROM " +:+ (py_str (fst (fst target)) +:+ "_DIFF") +:+ ";" /\
  exists info table1 table2,
    SNOWFLAKE_CONN_INFO = Some info /\
    connect info (fst (fst source)) (snd (fst source)) = inr table1 /\
    connect info (fst (fst target)) (snd (fst target)) = inr table2 /\
    fst (engine table1 table2 (snd source) (py_str (fst (fst target)) +:+ "_DIFF") w) = None /\
    wh (diff source target w)
    = snd (engine table1 table2 (snd source) (py_str (fst (fst target)) +:+ "_DIFF") w).
Proof.
  destruct source as [[sn sk] sc], target as [[tn tk] tc].
  handler_runs.
  all: intros H; repeat (destruct H as [H | H]; [try discriminate H |]); try contradiction.
  all: injection H as <-.
  all: split; [reflexivity | eauto 12].
Qed.

(** The run in which the engine is called. *)
Lemma engine_call_run source target w extra name :
  In (DiffTables extra name) (out (diff source target w)) ->
  extra = snd source /\
  name = py_str (fst (fst target)) +:+ "_DIFF" /\
  truthy (fst (fst source)) = true /\ truthy (fst (fst target)) = true /\
  exists info table1 table2,
    SNOWFLAKE_CONN_INFO = Some info /\
    connect info (fst (fst source)) (snd (fst source)) = inr table1 /\
    connect info (fst (fst target)) (snd (fst target)) = inr table2 /\
    wh (diff source target w) = snd (engine table1 table2 extra name w).
Proof.
  destruct source as [[sn sk] sc], target as [[tn tk] tc].
  unfold show_table_diff, show_table_diff_try.
  cbn [fst snd].
  destruct (truthy sn) eqn:Hs, (truthy tn) eqn:Ht; cbn [andb].
  2-4: unfold_diff; cbn [out In]; intros [H | []]; discriminate H.
  unfold show_table_diff_except, materialized_diff, show_buckets, materialize_table_name,
    convert_df_csv.
  diff_cases; cbn [out wh In].
  all: intros H; repeat (destruct H as [H | H]; [try discriminate H |]); try contradiction.
  all: injection H as <- <-.
  all: repeat split; eauto 12.
Qed.

(** X17: the engine is run only when both names are selected, on the two
    bound tables, with the column list of the source as extra columns and
    the target's name followed by [_DIFF]; the warehouse after the handler is
    the one the engine left. *)
Theorem engine_call_arguments source target w extra name :
  In (DiffTables extra name) (out (diff source target w)) ->
  extra = snd source /\
  name = py_str (fst (fst target)) +:+ "_DIFF" /\
  truthy (fst (fst source)) = true /\ truthy (fst (fst target)) = true /\
  exists info table1 table2,
    SNOWFLAKE_CONN_INFO = Some info /\
    connect info (fst (fst source)) (snd (fst source)) = inr table1 /\
    connect info (fst (fst target)) (snd (fst target)) = inr table2 /\
    wh (diff source target w) = snd (engine table1 table2 extra name w).
Proof. apply engine_call_run. Qed.

(** X18: a run in which the engine is not called leaves the warehouse as
    it was. *)
Theorem warehouse_untouched_without_engine source target w :
  (forall extra name, ~ In (DiffTables extra name) (out (diff source target w))) ->
  wh (diff source target w) = w.
Proof.
  destruct source as [[sn sk] sc], target as [[tn tk] tc].
  handler_runs.
  all: intros H; try reflexivity.
  all: exfalso; eapply H; eauto 12.
Qed.

(** X19: once the diff is read back, a page free of error has made the
    partition and found both columns named after the key column of the
    source, with the suffixes [_a] and [_b]: when a flag column or one of
    these two is missing, the page ends in the error message. *)
Theorem complete_page_has_key_columns source target w q m :
  In (ReadSqlQuery q) (out (diff source target w)) ->
  read_sql q (wh (diff source target w)) = inr m ->
  error_messages (out (diff source target w)) = [] ->
  exists d,
    flagged m = inr d /\
    has_column d (py_str (snd (fst source)) +:+ "_a") = true /\
    has_column d (py_str (snd (fst source)) +:+ "_b") = true.
Proof.
  destruct source as [[sn sk] sc], target as [[tn tk] tc].
  handler_runs.
  all: intros H; repeat (destruct H as [H | H]; [try discriminate H |]); try contradiction.
  all: injection H as <-; intros Hread Hnone; try discriminate Hnone.
  all: read_back Hread.
  all: injection Hread as <-.
  all: key_columns.
  all: eexists; split; [eassumption|]; split; assumption.
Qed.


End ClassifierRuns.

(** ** More on the script *)

Section ScriptRuns.
Context {W : Type}.
Variable current_tz : string.
Variable fetchall : string -> exn + list row.
Variable selected : Z -> list value -> value.
Variable ConnInfo : Type.
Variable SNOWFLAKE_CONN_INFO : option ConnInfo.
Variable TableSegment : Type.
Variable connect : ConnInfo -> value -> value -> exn + TableSegment.
Variable engine :
  TableSegment -> TableSegment -> option (list value) -> string -> W -> option exn * W.
Variable read_sql : string -> W -> exn + Materialized.
Variable to_csv : DiffFrame -> string.

Local Abbreviation resolve := (@load_sf_db_list W current_tz fetchall selected).
Local Abbreviation diff := (@show_table_diff W _ SNOWFLAKE_CONN_INFO _ connect engine read_sql to_csv).
Local Abbreviation page :=
  (@script W current_tz fetchall selected _ SNOWFLAKE_CONN_INFO _ connect engine read_sql to_csv).

(** The run of a [with col:] block. *)
Lemma side_run header count_in failed_msg log_prefix (w : W) :
  exists t,
    result (resolve count_in w) = inr t /\
    side current_tz fetchall selected header count_in failed_msg log_prefix w
    = mkOutcome (inr (Some t)) w
        (StHeader header :: out (resolve count_in w) ++ name_written t).
Proof.
  destruct (resolve_returns current_tz fetchall selected count_in w) as [t Ht].
  destruct (resolve_quiet current_tz fetchall selected count_in w) as [Hw _].
  exists t. split; [exact Ht|].
  unfold side, name_written. unfold_run.
  destruct (load_sf_db_list current_tz fetchall selected count_in w) as [[e|t'] w' tr];
    cbn [result wh out] in *; [discriminate|].
  injection Ht as ->. subst w'.
  destruct (truthy (fst (fst t))); cbn [app]; rewrite ?app_nil_r; reflexivity.
Qed.

(** The run of the page: both blocks, each against the warehouse as it
    was, then the handler on the two triples when the button is pressed. *)
Lemma script_run pressed w :
  exists source target,
    result (resolve 1 w) = inr source /\
    result (resolve 100 w) = inr target /\
    result (page pressed w) = inr tt /\
    wh (page pressed w) = (if pressed then wh (diff source target w) else w) /\
    out (page pressed w)
    = (StHeader "Source Table" :: out (resolve 1 w) ++ name_written source)
      ++ (StHeader "Target Table" :: out (resolve 100 w) ++ name_written target)
      ++ (if pressed then out (diff source target w) else []).
Proof.
  destruct (side_run "Source Table" 1
              "Error loading Source Table. Please select a valid (non-empty) schema/table combination."
              "Source Table Error: " w) as (s & Hs & Es).
  destruct (side_run "Target Table" 100
              "Error loading Target Table. Please select a valid (non-empty) schema/table combination."
              "Target Table Error: " w) as (t & Ht & Et).
  exists s, t. split; [exact Hs|]. split; [exact Ht|].
  assert (E : page pressed w =
              mkOutcome (inr tt) (if pressed then wh (diff s t w) else w)
                ((StHeader "Source Table" :: out (resolve 1 w) ++ name_written s)
                 ++ (StHeader "Target Table" :: out (resolve 100 w) ++ name_written t)
                 ++ (if pressed then out (diff s t w) else []))).
  { unfold script, bind. rewrite Es. cbv beta iota. rewrite Et. cbv beta iota.
    destruct pressed.
    - pose proof (diff_returns _ SNOWFLAKE_CONN_INFO _ connect engine read_sql to_csv s t w)
        as Hr.
      destruct (diff s t w) as [r w' tr]. cbn [result wh out] in *. subst r.
      reflexivity.
    - reflexivity. }
  rewrite E. repeat split.
Qed.

Lemma queries_name_written t : queries (name_written t) = [].
Proof. unfold name_written. destruct (truthy (fst (fst t))); reflexivity. Qed.

Lemma handler_asks_no_query source target w : queries (out (diff source target w)) = [].
Proof.
  destruct source as [[sn sk] sc], target as [[tn tk] tc].
  handler_runs; cbn [queries flat_map app]; reflexivity.
Qed.

(** X21: the page never raises, and its catalog queries are those of the
    source block followed by those of the target block, whatever the outcome
    of the source block and whether or not the button is pressed. *)
Theorem script_resolves_both_sides pressed w :
  result (page pressed w) = inr tt /\
  queries (out (page pressed w))
  = queries (out (resolve 1 w)) ++ queries (out (resolve 100 w)).
Proof.
  destruct (script_run pressed w) as (s & t & _ & _ & Hr & _ & ->).
  split; [exact Hr|].
  rewrite !queries_app. cbn [queries flat_map app].
  fold (queries (out (resolve 1 w) ++ name_written s)).
  fold (queries (out (resolve 100 w) ++ name_written t)).
  rewrite !queries_app, !queries_name_written, !app_nil_r.
  destruct pressed; [rewrite handler_asks_no_query|]; cbn [queries flat_map];
    now rewrite app_nil_r.
Qed.

(** What a block puts on the page besides the events of the resolver calls
    no collaborator of the classifier, shows no bucket and has no widget. *)
Lemma block_quiet header count t w :
  filter engine_call (StHeader header :: out (resolve count w) ++ name_written t) = [] /\
  filter shows_bucket (StHeader header :: out (resolve count w) ++ name_written t) = [] /\
  download_keys (StHeader header :: out (resolve count w) ++ name_written t) = [] /\
  selectbox_keys (StHeader header :: out (resolve count w) ++ name_written t)
  = selectbox_keys (out (resolve count w)).
Proof.
  destruct (resolve_quiet current_tz fetchall selected count w) as (_ & Hc & Hb & Hd).
  unfold download_keys, selectbox_keys in *.
  cbn [filter engine_call shows_bucket flat_map app].
  rewrite !filter_app, !flat_map_app, Hc, Hb, Hd.
  unfold name_written. destruct (truthy (fst (fst t))); cbn; rewrite ?app_nil_r; auto.
Qed.

(** X22: without the button the page calls no collaborator of the
    classifier, shows no bucket and leaves the warehouse as it was. *)
Theorem script_idle_without_button w :
  wh (page false w) = w /\
  filter engine_call (out (page false w)) = [] /\
  filter shows_bucket (out (page false w)) = [].
Proof.
  destruct (script_run false w) as (s & t & _ & _ & _ & Hw & ->).
  destruct (block_quiet "Source Table" 1 s w) as (Hc1 & Hb1 & _).
  destruct (block_quiet "Target Table" 100 t w) as (Hc2 & Hb2 & _).
  split; [exact Hw|].
  rewrite !filter_app, Hc1, Hc2, Hb1, Hb2. split; reflexivity.
Qed.

(** X23: when a side is unresolved, pressing the button ends the page
    with the message that both tables must be selected; no table is bound,
    the engine is not run and the warehouse is as it was. *)
Theorem button_with_unresolved_side w :
  result (resolve 1 w) = inr unresolved \/ result (resolve 100 w) = inr unresolved ->
  wh (page true w) = w /\
  filter engine_call (out (page true w)) = [] /\
  filter shows_bucket (out (page true w)) = [] /\
  exists tr, out (page true w) = tr ++ [StError select_tables_msg].
Proof.
  intros H.
  destruct (script_run true w) as (s & t & Hs & Ht & _ & Hw & ->).
  destruct (block_quiet "Source Table" 1 s w) as (Hc1 & Hb1 & _).
  destruct (block_quiet "Target Table" 100 t w) as (Hc2 & Hb2 & _).
  assert (Hguard : truthy (fst (fst s)) && truthy (fst (fst t)) = false).
  { destruct H as [H | H].
    - rewrite H in Hs. injection Hs as <-. reflexivity.
    - rewrite H in Ht. injection Ht as <-. apply andb_false_r. }
  rewrite (diff_unselected _ SNOWFLAKE_CONN_INFO _ connect engine read_sql to_csv s t w Hguard)
    in *.
  cbn [wh out] in *.
  split; [exact Hw|].
  rewrite !filter_app, Hc1, Hc2, Hb1, Hb2.
  repeat split.
  eexists. rewrite app_assoc. reflexivity.
Qed.

(** X24: on every page the keys of the select boxes are pairwise
    distinct, and so are the keys of the download buttons. *)
Theorem page_widget_keys_distinct pressed w :
  NoDup (selectbox_keys (out (page pressed w))) /\
  NoDup (download_keys (out (page pressed w))).
Proof.
  destruct (script_run pressed w) as (s & t & _ & _ & _ & _ & ->).
  destruct (block_quiet "Source Table" 1 s w) as (_ & _ & Hd1 & Hk1).
  destruct (block_quiet "Target Table" 100 t w) as (_ & _ & Hd2 & Hk2).
  destruct (selectbox_keys_prefix current_tz fetchall selected 1 w) as (n & _ & Hn).
  destruct (selectbox_keys_prefix current_tz fetchall selected 100 w) as (m & _ & Hm).
  destruct (handler_widget_keys _ SNOWFLAKE_CONN_INFO _ connect engine read_sql to_csv s t w)
    as (Hk3 & k & Hd3).
  unfold selectbox_keys, download_keys in *.
  rewrite !flat_map_app, Hd1, Hd2, Hk1, Hk2, Hn, Hm.
  assert (Hkeys : flat_map (fun e => match e with Selectbox _ _ key _ => [key] | _ => [] end)
                    (if pressed then out (diff s t w) else []) = [])
    by (destruct pressed; [exact Hk3 | reflexivity]).
  rewrite Hkeys, app_nil_r. cbn [app].
  split.
  - destruct n as [|[|[|[|n]]]], m as [|[|[|[|m]]]]; cbn; rewrite ?firstn_nil; cbn;
      repeat (constructor; [cbn; intuition discriminate|]); constructor.
  - destruct pressed; [rewrite Hd3 | constructor].
    destruct k as [|[|[|k]]]; cbn; rewrite ?firstn_nil;
      repeat (constructor; [cbn; intuition discriminate|]); constructor.
Qed.

Lemma picked_app key tr1 tr2 :
  picked key (tr1 ++ tr2)
  = match picked key tr1 with Some v => Some v | None => picked key tr2 end.
Proof.
  induction tr1 as [|e tr1 IH]; [reflexivity|].
  destruct e as [q a | l r | l o k v | m | m | h | x | x | f | h | l d f m k | n k | x n | q];
    cbn [app picked]; try exact IH.
  destruct (Z.eqb k key); [reflexivity | exact IH].
Qed.

Lemma picked_none key tr : ~ In key (selectbox_keys tr) -> picked key tr = None.
Proof.
  induction tr as [|e tr IH]; [reflexivity|].
  unfold selectbox_keys in *.
  destruct e as [q a | l r | l o k v | m | m | h | x | x | f | h | l d f m k | n k | x n | q];
    cbn [flat_map picked app]; try exact IH.
  intros H. destruct (Z.eqb_spec k key) as [-> | _].
  - exfalso. apply H. now left.
  - apply IH. intros Hin. apply H. now right.
Qed.

(** X25: whenever the page runs the engine, the table it materializes is
    named after the database, schema and table picked in the target block
    (the select boxes with keys 101, 102 and 103), followed by [_DIFF]. *)
Theorem page_materializes_under_target_picks pressed w extra name :
  In (DiffTables extra name) (out (page pressed w)) ->
  exists d s t,
    picked 101 (out (page pressed w)) = Some (VStr d) /\
    picked 102 (out (page pressed w)) = Some (VStr s) /\
    picked 103 (out (page pressed w)) = Some (VStr t) /\
    name = d +:+ "." +:+ s +:+ "." +:+ t +:+ "_DIFF".
Proof.
  intros Hin.
  destruct (script_run pressed w) as (src & tgt & Hs & Ht & _ & _ & E).
  rewrite E in *. clear E.
  destruct (block_quiet "Source Table" 1 src w) as (Hc1 & _ & _ & Hk1).
  destruct (block_quiet "Target Table" 100 tgt w) as (Hc2 & _ & _ & _).
  assert (Hcall : forall tr, filter engine_call tr = [] -> ~ In (DiffTables extra name) tr).
  { intros tr Hnone Hx.
    assert (Hf : In (DiffTables extra name) (filter engine_call tr))
      by (apply filter_In; split; [exact Hx | reflexivity]).
    rewrite Hnone in Hf. exact Hf. }
  apply in_app_or in Hin. destruct Hin as [Hin | Hin]; [now apply Hcall in Hin|].
  apply in_app_or in Hin. destruct Hin as [Hin | Hin]; [now apply Hcall in Hin|].
  destruct pressed; [|contradiction].
  apply (engine_call_run _ SNOWFLAKE_CONN_INFO _ connect engine read_sql to_csv) in Hin.
  destruct Hin as (_ & -> & _ & Htruthy & _).
  rewrite (resolve_of_try current_tz fetchall selected 100 w) in *.
  pose proof (try_success_run current_tz fetchall selected 100 w) as Hrun.
  destruct (load_sf_db_list_try current_tz fetchall selected 100 w) as [[e|t'] w' tr];
    cbn [result out] in *; injection Ht as <-; [discriminate Htruthy|].
  destruct (Hrun _ eq_refl)
    as (dbs & schs & tbls & cols & d & s & t & _ & _ & _ & _ & _ & _ & _ & -> & ->).
  exists d, s, t.
  assert (Hnone : forall key, (100 < key)%Z ->
            picked key (StHeader "Source Table" :: out (resolve 1 w) ++ name_written src)
            = None).
  { intros key Hkey. apply picked_none. rewrite Hk1.
    destruct (selectbox_keys_prefix current_tz fetchall selected 1 w) as (n & _ & ->).
    destruct n as [|[|[|[|n]]]]; cbn; rewrite ?firstn_nil; cbn; lia. }
  rewrite !picked_app, !Hnone by lia.
  cbn [picked app fst py_str]. same_keys.
  repeat split. now rewrite !append_assoc.
Qed.
End ScriptRuns.

(** * The theorems on the sample runs *)

Lemma buckets_partition_witness :
  (forall r, In r (rows Sample.four_rows) -> is_exclusive_a r && is_exclusive_b r = false) /\
  Permutation
    (rows (not_in_target Sample.four_rows) ++ rows (not_in_source Sample.four_rows)
       ++ rows (value_mismatch Sample.four_rows))
    (rows Sample.four_rows).
Proof.
  assert (H : forall r, In r (rows Sample.four_rows) ->
                        is_exclusive_a r && is_exclusive_b r = false).
  { intros r [<- | [<- | [<- | [<- | []]]]]; reflexivity. }
  split; [exact H | apply (buckets_partition Sample.four_rows H)].
Defined.

Lemma resolver_qualified_name_witness :
  all_well_shaped 0
    (queries (out (Sample.resolve Sample.databases Sample.schemas Sample.tables
                     Sample.order_columns 1))) = true /\
  exists key_column columns,
    result (Sample.resolve Sample.databases Sample.schemas Sample.tables
              Sample.order_columns 1)
    = inr (VStr "SALES.PUBLIC.ORDERS", key_column, Some columns).
Proof.
  split; [reflexivity|].
  apply (resolver_qualified_name Sample.tz
           (Sample.catalog Sample.databases Sample.schemas Sample.tables Sample.order_columns)
           Sample.first_option 1 tt "SALES" "PUBLIC" "ORDERS"); reflexivity.
Defined.

Lemma resolver_empty_answer_witness :
  In (Query "SHOW TERSE SCHEMAS IN SALES;" (inr []))
     (out (Sample.resolve Sample.databases [] Sample.tables Sample.order_columns 100)) /\
  result (Sample.resolve Sample.databases [] Sample.tables Sample.order_columns 100)
  = inr unresolved.
Proof.
  assert (H : In (Query "SHOW TERSE SCHEMAS IN SALES;" (inr []))
                (out (Sample.resolve Sample.databases [] Sample.tables
                        Sample.order_columns 100))).
  { vm_compute. right. right. right. left. reflexivity. }
  split; [exact H|].
  exact (resolver_empty_answer Sample.tz
           (Sample.catalog Sample.databases [] Sample.tables Sample.order_columns)
           Sample.first_option 100 tt _ H).
Defined.

Lemma resolver_shape_mismatch_witness :
  width Sample.narrow_tables <> length (expected_columns 2) /\
  result (Sample.resolve Sample.databases Sample.schemas Sample.narrow_tables
            Sample.order_columns 1) = inr unresolved.
Proof.
  assert (H : width Sample.narrow_tables <> length (expected_columns 2))
    by (vm_compute; lia).
  split; [exact H|].
  apply (resolver_shape_mismatch Sample.tz
           (Sample.catalog Sample.databases Sample.schemas Sample.narrow_tables
              Sample.order_columns)
           Sample.first_option 1 tt 2 "SHOW TERSE TABLES IN SCHEMA SALES.PUBLIC;"
           Sample.narrow_tables); [reflexivity | exact H].
Defined.

Lemma column_listing_empty_witness :
  nth_error
    (queries (out (Sample.resolve Sample.databases Sample.schemas Sample.tables [] 1))) 3
  = Some ("SHOW TERSE COLUMNS IN SALES.PUBLIC.ORDERS;", inr []) /\
  In (StError "Error loading database/schema/table list: No columns found.")
     (out (Sample.resolve Sample.databases Sample.schemas Sample.tables [] 1)).
Proof.
  split; [reflexivity|].
  apply (column_listing_empty Sample.tz
           (Sample.catalog Sample.databases Sample.schemas Sample.tables [])
           Sample.first_option 1 tt "SHOW TERSE COLUMNS IN SALES.PUBLIC.ORDERS;").
  reflexivity.
Defined.

(** C5: the database listing has the four columns that the query of line 54
    selects, and the resolver fails on it: the frame of line 58 is labelled
    with five columns, pandas raises, and the resolver returns
    [(None, None, None)] with the message of the shape mismatch. *)
Theorem four_column_database_listing_fails :
  width Sample.databases_as_queried = 4 /\
  length db_columns = 5 /\
  Sample.resolve Sample.databases_as_queried Sample.schemas Sample.tables
    Sample.order_columns 1
  = mkOutcome (inr unresolved) tt
      [Query (db_query Sample.tz) (inr Sample.databases_as_queried);
       Print "db_list:" Sample.databases_as_queried;
       LoggingError "Error loading database/schema/table list: 5 columns passed, passed data had 4 columns";
       StError "Error loading database/schema/table list: 5 columns passed, passed data had 4 columns"].
Proof. repeat split. Qed.

Lemma diff_needs_both_tables_witness :
  fst (fst unresolved) = VNone /\
  Sample.diff Sample.engine unresolved Sample.orders_copy None
  = mkOutcome (inr tt) None [StError select_tables_msg].
Proof.
  split; [reflexivity|].
  apply (diff_needs_both_tables _ (Some "snowflake://analyst@acme/SALES") _ Sample.connect
           Sample.engine Sample.read_sql Sample.to_csv).
  left. reflexivity.
Defined.

(** C3: the database listing as the query of line 54 selects it, with
    four columns, a schema, a table and a column listing of five, five and
    eleven columns, and a user who takes the first option of every select
    box.  The resolver does not return the qualified name: the frame of
    line 58 is given five labels, so the run ends after the first query,
    shows no select box and returns [(None, None, None)].  The same listing
    with a fifth cell in each row resolves to [SALES.PUBLIC.ORDERS]. *)
Theorem queried_listing_yields_no_name :
  width Sample.databases_as_queried = 4 /\
  width Sample.schemas = 5 /\ width Sample.tables = 5 /\ width Sample.order_columns = 11 /\
  result (Sample.resolve Sample.databases_as_queried Sample.schemas Sample.tables
            Sample.order_columns 1) = inr unresolved /\
  selectbox_keys (out (Sample.resolve Sample.databases_as_queried Sample.schemas
                         Sample.tables Sample.order_columns 1)) = [] /\
  map fst (queries (out (Sample.resolve Sample.databases_as_queried Sample.schemas
                           Sample.tables Sample.order_columns 1))) = [db_query Sample.tz] /\
  error_messages (out (Sample.resolve Sample.databases_as_queried Sample.schemas
                         Sample.tables Sample.order_columns 1))
  = ["Error loading database/schema/table list: 5 columns passed, passed data had 4 columns"] /\
  map (firstn 4) Sample.databases = Sample.databases_as_queried /\
  result (Sample.resolve Sample.databases Sample.schemas Sample.tables
            Sample.order_columns 1)
  = inr (VStr "SALES.PUBLIC.ORDERS", VStr "ID", Some [VStr "ID"; VStr "AMOUNT"]).
Proof. repeat split. Qed.

(** C8: the handler as the script has it, with the name
    [SNOWFLAKE_CONN_INFO] unbound, run twice in a row on the selected tables
    [SALES.PUBLIC.ORDERS] and [STAGING.PUBLIC.ORDERS].  Each run stops at
    line 123, where the name is used: no table is bound, the engine is not
    run, nothing is materialized and no count is shown; the page shows the
    message that the diff failed, and the [NameError] is logged. *)
Theorem shipped_handler_materializes_nothing :
  truthy (fst (fst Sample.orders)) = true /\
  truthy (fst (fst Sample.orders_copy)) = true /\
  Sample.shipped_diff Sample.orders Sample.orders_copy None
  = mkOutcome (inr tt) None
      [StError diff_failed_msg; LoggingError "name 'SNOWFLAKE_CONN_INFO' is not defined"] /\
  Sample.shipped_diff Sample.orders Sample.orders_copy
    (wh (Sample.shipped_diff Sample.orders Sample.orders_copy None))
  = mkOutcome (inr tt) None
      [StError diff_failed_msg; LoggingError "name 'SNOWFLAKE_CONN_INFO' is not defined"] /\
  filter engine_call (out (Sample.shipped_diff Sample.orders Sample.orders_copy None)) = [] /\
  shown_counts (out (Sample.shipped_diff Sample.orders Sample.orders_copy None)) = [].
Proof. repeat split. Qed.



(** * The further theorems on the sample runs *)

Lemma queries_scoped_by_picks_witness :
  nth_error (queries (out (Cases.resolve Sample.databases 1))) 2
  = Some ("SHOW TERSE TABLES IN SCHEMA SALES.PUBLIC;", inr Sample.tables) /\
  exists d s t,
    "SHOW TERSE TABLES IN SCHEMA SALES.PUBLIC;" = catalog_query Sample.tz 2 d s t /\
    2 < 4 /\
    (1 <= 2 -> picked (1 + 1) (out (Cases.resolve Sample.databases 1)) = Some (VStr d)) /\
    (2 <= 2 -> picked (1 + 2) (out (Cases.resolve Sample.databases 1)) = Some (VStr s)) /\
    (3 <= 2 -> picked (1 + 3) (out (Cases.resolve Sample.databases 1)) = Some (VStr t)).
Proof.
  split; [reflexivity|].
  apply (queries_scoped_by_picks Sample.tz
           (Sample.catalog Sample.databases Sample.schemas Sample.tables Sample.order_columns)
           Sample.first_option 1 tt 2 _ (inr Sample.tables)).
  reflexivity.
Defined.

Lemma query_error_reported_witness :
  nth_error (queries (out (Cases.resolve Cases.archived_databases 1))) 1
  = Some ("SHOW TERSE SCHEMAS IN ARCHIVE;",
          inl (External "ProgrammingError" "SQL compilation error")) /\
  error_messages (out (Cases.resolve Cases.archived_databases 1))
  = ["Error loading database/schema/table list: SQL compilation error"].
Proof.
  split; [reflexivity|].
  apply (query_error_reported Sample.tz
           (Sample.catalog Cases.archived_databases Sample.schemas Sample.tables
              Sample.order_columns)
           Sample.first_option 1 tt 1 "SHOW TERSE SCHEMAS IN ARCHIVE;"
           (External "ProgrammingError" "SQL compilation error")).
  reflexivity.
Defined.

Lemma empty_listing_reported_witness :
  nth_error
    (queries (out (Sample.resolve Sample.databases Sample.schemas [] Sample.order_columns 1))) 2
  = Some ("SHOW TERSE TABLES IN SCHEMA SALES.PUBLIC;", inr []) /\
  error_messages (out (Sample.resolve Sample.databases Sample.schemas [] Sample.order_columns 1))
  = ["Error loading database/schema/table list: No tables found."].
Proof.
  split; [reflexivity|].
  apply (empty_listing_reported Sample.tz
           (Sample.catalog Sample.databases Sample.schemas [] Sample.order_columns)
           Sample.first_option 1 tt 2 "SHOW TERSE TABLES IN SCHEMA SALES.PUBLIC;").
  reflexivity.
Defined.

Lemma shape_mismatch_reported_witness :
  Sample.narrow_tables <> [] /\
  width Sample.narrow_tables <> length (expected_columns 2) /\
  error_messages
    (out (Sample.resolve Sample.databases Sample.schemas Sample.narrow_tables
            Sample.order_columns 1))
  = ["Error loading database/schema/table list: 5 columns passed, passed data had 4 columns"].
Proof.
  assert (Hne : Sample.narrow_tables <> []) by discriminate.
  assert (Hw : width Sample.narrow_tables <> length (expected_columns 2))
    by (vm_compute; lia).
  split; [exact Hne|]. split; [exact Hw|].
  apply (shape_mismatch_reported Sample.tz
           (Sample.catalog Sample.databases Sample.schemas Sample.narrow_tables
              Sample.order_columns)
           Sample.first_option 1 tt 2 "SHOW TERSE TABLES IN SCHEMA SALES.PUBLIC;"
           Sample.narrow_tables); [reflexivity | exact Hne | exact Hw].
Defined.

Lemma no_step_after_failure_witness :
  well_shaped 1 (inr []) = false /\
  length (queries (out (Sample.resolve Sample.databases [] Sample.tables
                          Sample.order_columns 100))) = 2 /\
  length (selectbox_keys (out (Sample.resolve Sample.databases [] Sample.tables
                                 Sample.order_columns 100))) = 1.
Proof.
  split; [reflexivity|].
  apply (no_step_after_failure Sample.tz
           (Sample.catalog Sample.databases [] Sample.tables Sample.order_columns)
           Sample.first_option 100 tt 1 "SHOW TERSE SCHEMAS IN SALES;" (inr []));
    reflexivity.
Defined.

Lemma non_str_pick_reported_witness :
  picked 2 (out (Cases.resolve Cases.nameless_databases 1)) = Some VNone /\
  result (Cases.resolve Cases.nameless_databases 1) = inr unresolved /\
  error_messages (out (Cases.resolve Cases.nameless_databases 1))
  = [load_error_prefix +:+ "can only concatenate str (not " +:+ dquote +:+ "NoneType"
       +:+ dquote +:+ ") to str"] /\
  picked (2 + 1) (out (Cases.resolve Cases.nameless_databases 1)) = None.
Proof.
  split; [reflexivity|].
  apply (non_str_pick_reported Sample.tz
           (Sample.catalog Cases.nameless_databases Sample.schemas Sample.tables
              Sample.order_columns)
           Sample.first_option 1 tt 2 VNone); [reflexivity | lia | reflexivity].
Defined.

Lemma resolved_name_from_picks_witness :
  result (Cases.resolve Sample.databases 100)
  = inr (VStr "SALES.PUBLIC.ORDERS", VStr "ID", Some [VStr "ID"; VStr "AMOUNT"]) /\
  exists d s t,
    VStr "SALES.PUBLIC.ORDERS" = VStr (d +:+ "." +:+ s +:+ "." +:+ t) /\
    picked (100 + 1) (out (Cases.resolve Sample.databases 100)) = Some (VStr d) /\
    picked (100 + 2) (out (Cases.resolve Sample.databases 100)) = Some (VStr s) /\
    picked (100 + 3) (out (Cases.resolve Sample.databases 100)) = Some (VStr t) /\
    length (queries (out (Cases.resolve Sample.databases 100))) = 4 /\
    all_well_shaped 0 (queries (out (Cases.resolve Sample.databases 100))) = true.
Proof.
  split; [reflexivity|].
  apply (resolved_name_from_picks Sample.tz
           (Sample.catalog Sample.databases Sample.schemas Sample.tables Sample.order_columns)
           Sample.first_option 100 tt _ (VStr "ID") [VStr "ID"; VStr "AMOUNT"]).
  reflexivity.
Defined.

Lemma resolved_columns_from_listing_witness :
  result (Cases.resolve Sample.databases 1)
  = inr (VStr "SALES.PUBLIC.ORDERS", VStr "ID", Some [VStr "ID"; VStr "AMOUNT"]) /\
  exists q rows,
    nth_error (queries (out (Cases.resolve Sample.databases 1))) 3 = Some (q, inr rows) /\
    [VStr "ID"; VStr "AMOUNT"] = map (fun r => nth 2 r VNone) rows /\
    offered (1 + 4) (out (Cases.resolve Sample.databases 1)) = Some [VStr "ID"; VStr "AMOUNT"] /\
    picked (1 + 4) (out (Cases.resolve Sample.databases 1)) = Some (VStr "ID").
Proof.
  split; [reflexivity|].
  apply (resolved_columns_from_listing Sample.tz
           (Sample.catalog Sample.databases Sample.schemas Sample.tables Sample.order_columns)
           Sample.first_option 1 tt (VStr "SALES.PUBLIC.ORDERS")).
  reflexivity.
Defined.

Lemma key_is_a_listed_column_witness :
  (forall k options, options <> [] -> In (Sample.first_option k options) options) /\
  In (VStr "ID") [VStr "ID"; VStr "AMOUNT"].
Proof.
  assert (H : forall (k : Z) (options : list value),
             options <> [] -> In (Sample.first_option k options) options).
  { intros k [|o options] Hne; [contradiction | now left]. }
  split; [exact H|].
  apply (key_is_a_listed_column (W:=unit) Sample.tz
           (Sample.catalog Sample.databases Sample.schemas Sample.tables Sample.order_columns)
           Sample.first_option 1 tt (VStr "SALES.PUBLIC.ORDERS") _ _ H).
  reflexivity.
Defined.

Lemma count_only_names_widgets_witness :
  (forall i options,
     Sample.first_option (1 + i) options = Sample.first_option (100 + i) options) /\
  result (Cases.resolve Sample.databases 1) = result (Cases.resolve Sample.databases 100).
Proof.
  split; [reflexivity|].
  apply (count_only_names_widgets Sample.tz
           (Sample.catalog Sample.databases Sample.schemas Sample.tables Sample.order_columns)
           Sample.first_option 1 100 tt).
  reflexivity.
Defined.

Lemma counts_match_key_columns_witness :
  written_series (out (Sample.diff Sample.engine Sample.orders Sample.orders_copy None))
  = [[VInt 1]; [VInt 2]; [VInt 3; VInt 4]] /\
  shown_counts (out (Sample.diff Sample.engine Sample.orders Sample.orders_copy None))
  = [[1; 1; 2]].
Proof.
  split; [reflexivity|].
  apply (counts_match_key_columns _ (Some "snowflake://analyst@acme/SALES") _ Sample.connect
           Sample.engine Sample.read_sql Sample.to_csv Sample.orders Sample.orders_copy None
           [VInt 1] [VInt 2] [VInt 3; VInt 4]).
  reflexivity.
Defined.

Lemma read_back_after_engine_witness :
  In (ReadSqlQuery "SELECT * FROM STAGING.PUBLIC.ORDERS_DIFF;")
     (out (Sample.diff Sample.engine Sample.orders Sample.orders_copy None)) /\
  "SELECT * FROM STAGING.PUBLIC.ORDERS_DIFF;"
  = "SELECT * FROM " +:+ (py_str (fst (fst Sample.orders_copy)) +:+ "_DIFF") +:+ ";".
Proof.
  assert (H : In (ReadSqlQuery "SELECT * FROM STAGING.PUBLIC.ORDERS_DIFF;")
                (out (Sample.diff Sample.engine Sample.orders Sample.orders_copy None))).
  { vm_compute. right. right. right. left. reflexivity. }
  split; [exact H|].
  destruct (read_back_after_engine _ (Some "snowflake://analyst@acme/SALES") _ Sample.connect
              Sample.engine Sample.read_sql Sample.to_csv Sample.orders Sample.orders_copy
              None _ H) as (Hq & _).
  exact Hq.
Defined.

Lemma engine_call_arguments_witness :
  In (DiffTables (Some [VStr "ID"; VStr "AMOUNT"]) "STAGING.PUBLIC.ORDERS_DIFF")
     (out (Sample.diff Sample.engine Sample.orders Sample.orders_copy None)) /\
  Some [VStr "ID"; VStr "AMOUNT"] = snd Sample.orders /\
  "STAGING.PUBLIC.ORDERS_DIFF" = py_str (fst (fst Sample.orders_copy)) +:+ "_DIFF".
Proof.
  assert (H : In (DiffTables (Some [VStr "ID"; VStr "AMOUNT"]) "STAGING.PUBLIC.ORDERS_DIFF")
                (out (Sample.diff Sample.engine Sample.orders Sample.orders_copy None))).
  { vm_compute. right. right. left. reflexivity. }
  split; [exact H|].
  destruct (engine_call_arguments _ (Some "snowflake://analyst@acme/SALES") _ Sample.connect
              Sample.engine Sample.read_sql Sample.to_csv Sample.orders Sample.orders_copy
              None _ _ H) as (He & Hn & _).
  split; assumption.
Defined.

Lemma warehouse_untouched_without_engine_witness :
  (forall extra name,
     ~ In (DiffTables extra name)
         (out (Sample.diff Sample.engine unresolved Sample.orders_copy
                 (Some ("OLD_DIFF", Sample.four_rows))))) /\
  wh (Sample.diff Sample.engine unresolved Sample.orders_copy
        (Some ("OLD_DIFF", Sample.four_rows)))
  = Some ("OLD_DIFF", Sample.four_rows).
Proof.
  assert (H : forall extra name,
             ~ In (DiffTables extra name)
                 (out (Sample.diff Sample.engine unresolved Sample.orders_copy
                         (Some ("OLD_DIFF", Sample.four_rows))))).
  { intros extra name [Hx | []]. discriminate Hx. }
  split; [exact H|].
  exact (warehouse_untouched_without_engine _ (Some "snowflake://analyst@acme/SALES") _
           Sample.connect Sample.engine Sample.read_sql Sample.to_csv unresolved
           Sample.orders_copy (Some ("OLD_DIFF", Sample.four_rows)) H).
Defined.

Lemma complete_page_has_key_columns_witness :
  In (ReadSqlQuery "SELECT * FROM STAGING.PUBLIC.ORDERS_DIFF;")
     (out (Sample.diff Sample.engine Sample.orders Sample.orders_copy None)) /\
  error_messages (out (Sample.diff Sample.engine Sample.orders Sample.orders_copy None)) = [] /\
  exists d,
    flagged (Sample.stored Sample.four_rows) = inr d /\
    has_column d "ID_a" = true /\ has_column d "ID_b" = true.
Proof.
  assert (H : In (ReadSqlQuery "SELECT * FROM STAGING.PUBLIC.ORDERS_DIFF;")
                (out (Sample.diff Sample.engine Sample.orders Sample.orders_copy None))).
  { vm_compute. right. right. right. left. reflexivity. }
  split; [exact H|]. split; [reflexivity|].
  apply (complete_page_has_key_columns _ (Some "snowflake://analyst@acme/SALES") _
           Sample.connect Sample.engine Sample.read_sql Sample.to_csv
           Sample.orders Sample.orders_copy None _ (Sample.stored Sample.four_rows) H);
    reflexivity.
Defined.


Lemma button_with_unresolved_side_witness :
  result (Sample.resolve Sample.databases [] Sample.tables Sample.order_columns 1)
  = inr unresolved /\
  wh (Cases.page [] true None) = None /\
  filter engine_call (out (Cases.page [] true None)) = [].
Proof.
  split; [reflexivity|].
  destruct (button_with_unresolved_side Sample.tz
              (Sample.catalog Sample.databases [] Sample.tables Sample.order_columns)
              Sample.first_option _ (Some "snowflake://analyst@acme/SALES") _ Sample.connect
              Sample.engine Sample.read_sql Sample.to_csv None
              (or_introl eq_refl)) as (Hw & Hc & _).
  split; [exact Hw | exact Hc].
Defined.

Lemma page_materializes_under_target_picks_witness :
  In (DiffTables (Some [VStr "ID"; VStr "AMOUNT"]) "SALES.PUBLIC.ORDERS_DIFF")
     (out (Cases.page Sample.schemas true None)) /\
  exists d s t,
    picked 101 (out (Cases.page Sample.schemas true None)) = Some (VStr d) /\
    picked 102 (out (Cases.page Sample.schemas true None)) = Some (VStr s) /\
    picked 103 (out (Cases.page Sample.schemas true None)) = Some (VStr t) /\
    "SALES.PUBLIC.ORDERS_DIFF" = d +:+ "." +:+ s +:+ "." +:+ t +:+ "_DIFF".
Proof.
  assert (H : In (DiffTables (Some [VStr "ID"; VStr "AMOUNT"]) "SALES.PUBLIC.ORDERS_DIFF")
                (out (Cases.page Sample.schemas true None))).
  { vm_compute. repeat (first [left; reflexivity | right]). }
  split; [exact H|].
  exact (page_materializes_under_target_picks Sample.tz
           (Sample.catalog Sample.databases Sample.schemas Sample.tables Sample.order_columns)
           Sample.first_option _ (Some "snowflake://analyst@acme/SALES") _ Sample.connect
           Sample.engine Sample.read_sql Sample.to_csv true None _ _ H).
Defined.

Lemma unbound_conn_info_run_witness :
  show_table_diff None Sample.connect Sample.engine Sample.read_sql Sample.to_csv
    Sample.orders Sample.orders_copy (Some ("OLD_DIFF", Sample.four_rows))
  = mkOutcome (inr tt) (Some ("OLD_DIFF", Sample.four_rows))
      [StError diff_failed_msg; LoggingError "name 'SNOWFLAKE_CONN_INFO' is not defined"].
Proof.
  apply (unbound_conn_info_run _ None _ Sample.connect Sample.engine Sample.read_sql
           Sample.to_csv Sample.orders Sample.orders_copy
           (Some ("OLD_DIFF", Sample.four_rows))); reflexivity.
Defined.
